(** * volga-script: the weather polling script [main.py], embedded in Rocq

    The script polls a weather API, maps the JSON answer to a flat reading,
    stores it in a table, and exports the ten newest rows to a spreadsheet
    on the [export] command.  This file embeds [get_weather_data],
    [save_to_db], [export_to_excel], [weather_loop], [handle_user_input]
    and [main] as functions over an explicit world state, with Python's
    exceptions (their class and their text) as an error type, and proves
    what the specification says about them.

    Layout: part I holds every definition, part II the lemmas and
    theorems on what the specification claims, part III further
    properties of the code. *)

From Stdlib Require Import ZArith List String Ascii Lia Floats.
From stdpp Require Import base decidable option list sorting strings pretty.

#[local] Set Warnings "-register-all,-inexact-float".
Local Open Scope Z_scope.

(* ===================================================================== *)
(** * Part I: definitions                                                 *)
(* ===================================================================== *)

(** ** Python exceptions and fallible computations *)

(** The classes of the exceptions that reach the [except Exception] of
    the poll loop. *)
Inductive exn : Type :=
| KeyError           (* d[k] with k not a key of d *)
| IndexError         (* l[i] with i out of range *)
| TypeError          (* operand of the wrong type *)
| ValueError         (* int(nan) *)
| OverflowError      (* float(huge int) *)
| ClientError        (* aiohttp: what session.get raises when the request
                        cannot be completed *)
| ContentTypeError   (* aiohttp: response.json() on a response whose
                        content type is not JSON *)
| JSONDecodeError    (* json: response.json() on a text that is not JSON
                        (a ValueError) *)
| StatementError.    (* SQLAlchemy: the INSERT could not be executed *)

(** An exception that is raised: its class and its text, [str(e)], which
    is what the poll loop prints. *)
Record exception : Type := Exception {
  kind : exn;
  message : string
}.

Inductive result (A : Type) : Type :=
| Ok (a : A)
| Raise (e : exception).
Arguments Ok {A} a.
Arguments Raise {A} e.

#[global] Instance result_ret : MRet result := fun A a => Ok a.
#[global] Instance result_bind : MBind result := fun A B k m =>
  match m with
  | Ok a => k a
  | Raise e => Raise e
  end.

Definition is_ok {A} (r : result A) : bool :=
  match r with Ok _ => true | Raise _ => false end.

(** ** Python floats: IEEE 754 binary64

    Every finite binary64 value is an integer multiple of [2^-1074], so a
    finite float is kept as that integer (its number of units).  The two
    zeros are identified: no operation of the script tells them apart
    ([int], [>], [+ 22.5], [% 360] and the value of [* 0.75006] agree on
    them). *)

Inductive pyfloat : Type :=
| Fin (u : Z)        (* the value u * 2^-1074 *)
| Inf (neg : bool)
| NaN.

(** The number of units in 1.0. *)
Definition U : Z := 2 ^ 1074.

(** Units at or above which a rounded result overflows to infinity:
    2^1024 in units. *)
Definition OVF : Z := 2 ^ 2098.

(** [rhe n d]: the integer nearest to [n / d] (for [0 <= n], [0 < d]),
    ties to even. *)
Definition rhe (n d : Z) : Z :=
  let q := n / d in
  match 2 * (n mod d) ?= d with
  | Lt => q
  | Gt => q + 1
  | Eq => if Z.even q then q else q + 1
  end.

(** [round53 n d]: the rational [n / d], counted in units, rounded to the
    nearest binary64 value (53 significant bits, ties to even), as every
    IEEE operation rounds its exact result. *)
Definition round53 (n d : Z) : pyfloat :=
  let a := Z.abs n in
  let k := Z.max 0 (Z.log2 (a / d) + 1 - 53) in
  let u := rhe a (d * 2 ^ k) * 2 ^ k in
  if OVF <=? u then Inf (n <? 0) else Fin (Z.sgn n * u).

Definition fadd (x y : pyfloat) : pyfloat :=
  match x, y with
  | NaN, _ | _, NaN => NaN
  | Inf sx, Inf sy => if Bool.eqb sx sy then x else NaN
  | Inf _, _ => x
  | _, Inf _ => y
  | Fin a, Fin b => round53 (a + b) 1
  end.

Definition fmul (x y : pyfloat) : pyfloat :=
  match x, y with
  | NaN, _ | _, NaN => NaN
  | Inf sx, Inf sy => Inf (xorb sx sy)
  | Inf sx, Fin b => if b =? 0 then NaN else Inf (xorb sx (b <? 0))
  | Fin a, Inf sy => if a =? 0 then NaN else Inf (xorb (a <? 0) sy)
  | Fin a, Fin b => round53 (a * b) U
  end.

(** [x < y] on floats; false as soon as one side is a NaN. *)
Definition fltb (x y : pyfloat) : bool :=
  match x, y with
  | NaN, _ | _, NaN => false
  | Inf sx, Inf sy => sx && negb sy
  | Inf sx, Fin _ => sx
  | Fin _, Inf sy => negb sy
  | Fin a, Fin b => a <? b
  end.

(** C's [fmod]: the exact remainder, with the sign of the dividend. *)
Definition fmod (x y : pyfloat) : pyfloat :=
  match x, y with
  | NaN, _ | _, NaN => NaN
  | Inf _, _ => NaN
  | Fin a, Inf _ => Fin a
  | Fin a, Fin b => if b =? 0 then NaN else Fin (Z.rem a b)
  end.

(** CPython's [float_rem] for a divisor [wx] that is not zero:
    [mod = fmod(vx, wx); if (mod) { if ((wx < 0) != (mod < 0)) mod += wx; }
     else mod = copysign(0.0, wx);] *)
Definition float_rem (vx wx : pyfloat) : pyfloat :=
  let md := fmod vx wx in
  match md with
  | Fin 0 => Fin 0
  | _ =>
    if negb (Bool.eqb (fltb wx (Fin 0)) (fltb md (Fin 0)))
    then fadd md wx else md
  end.

(** A decimal literal [m * 10^-e] of the source, correctly rounded. *)
Definition float_of_decimal (m : Z) (e : nat) : pyfloat :=
  round53 (m * U) (10 ^ Z.of_nat e).

(** [float(z)] for a Python int: correctly rounded, [OverflowError] when
    the int is too large. *)
Definition float_of_int (z : Z) : result pyfloat :=
  match round53 (z * U) 1 with
  | Fin u => Ok (Fin u)
  | _ => Raise (Exception OverflowError "int too large to convert to float")
  end.

(** [int(x)]: truncation toward zero. *)
Definition int_of_float (x : pyfloat) : result Z :=
  match x with
  | Fin u => Ok (Z.quot u U)
  | Inf _ =>
    Raise (Exception OverflowError "cannot convert float infinity to integer")
  | NaN => Raise (Exception ValueError "cannot convert float NaN to integer")
  end.

(** The kernel's binary64 floats read into this model: used to write
    inputs as decimal literals and to compare the operations above with
    the hardware's on concrete inputs. *)
Definition of_prim (f : PrimFloat.float) : pyfloat :=
  match Prim2SF f with
  | S754_zero _ => Fin 0
  | S754_infinity s => Inf s
  | S754_nan => NaN
  | S754_finite s m e =>
    let u := Z.pos m * 2 ^ (e + 1074) in Fin (if s then - u else u)
  end.

(** ** Python values, as [response.json()] produces them *)

(** A [str] is kept as the bytes of its UTF-8 encoding. *)
Inductive pyval : Type :=
| VNone
| VBool (b : bool)
| VInt (z : Z)
| VFloat (f : pyfloat)
| VStr (s : string)
| VList (l : list pyval)
| VDict (d : list (string * pyval)).

Definition nl : string := String "010"%char "".
Definition dq : string := String "034"%char "".

(** [type(v).__name__], as the texts of the type errors spell it. *)
Definition type_name (v : pyval) : string :=
  match v with
  | VNone => "NoneType"
  | VBool _ => "bool"
  | VInt _ => "int"
  | VFloat _ => "float"
  | VStr _ => "str"
  | VList _ => "list"
  | VDict _ => "dict"
  end.

(** The values Python does arithmetic on. *)
Definition is_number (v : pyval) : bool :=
  match v with
  | VBool _ | VInt _ | VFloat _ => true
  | _ => false
  end.

Definition not_subscriptable (v : pyval) : exception :=
  Exception TypeError ("'" +:+ type_name v +:+ "' object is not subscriptable").

(** The [TypeError] of [v[k]] for a string [k], when [v] is no dict. *)
Definition no_str_index (v : pyval) : exception :=
  match v with
  | VList _ =>
    Exception TypeError "list indices must be integers or slices, not str"
  | VStr _ =>
    Exception TypeError "string indices must be integers, not 'str'"
  | _ => not_subscriptable v
  end.

(** [d[k]] for a string key. *)
Fixpoint assoc (k : string) (d : list (string * pyval)) : option pyval :=
  match d with
  | [] => None
  | (k', v) :: d' => if String.eqb k k' then Some v else assoc k d'
  end.

(** [v[k]] for a key [k] that is one of the string literals of the
    script.  The text of a [KeyError] is the [repr] of the key: the key
    between single quotes, as these literals hold nothing to escape. *)
Definition getitem (v : pyval) (k : string) : result pyval :=
  match v with
  | VDict d =>
    match assoc k d with
    | Some x => Ok x
    | None => Raise (Exception KeyError ("'" +:+ k +:+ "'"))
    end
  | _ => Raise (no_str_index v)
  end.

(** [l[i]] on a Python list: negative indices count from the end. *)
Definition list_index {A} (l : list A) (i : Z) : result A :=
  let n := Z.of_nat (length l) in
  let j := if i <? 0 then i + n else i in
  if (0 <=? j) && (j <? n)
  then match nth_error l (Z.to_nat j) with
       | Some x => Ok x
       | None => Raise (Exception IndexError "list index out of range")
       end
  else Raise (Exception IndexError "list index out of range").

(** The first character of a UTF-8 text: its first byte and the
    continuation bytes that follow it. *)
Definition is_continuation (c : ascii) : bool :=
  let n := Z.of_N (N_of_ascii c) in (128 <=? n) && (n <? 192).

Fixpoint continuation (s : string) : string :=
  match s with
  | EmptyString => EmptyString
  | String c s' => if is_continuation c then String c (continuation s') else EmptyString
  end.

(** [v[0]]: the first element of a list, the first character of a
    string; a JSON object has string keys only, so [d[0]] is a
    [KeyError]. *)
Definition getitem0 (v : pyval) : result pyval :=
  match v with
  | VList l => list_index l 0
  | VStr s =>
    match s with
    | EmptyString => Raise (Exception IndexError "string index out of range")
    | String c s' => Ok (VStr (String c (continuation s')))
    end
  | VDict _ => Raise (Exception KeyError "0")
  | _ => Raise (not_subscriptable v)
  end.

(** The operand of a float operation, as [PyFloat_AsDouble] converts
    it: ints and bools are converted, anything else is not a number. *)
Definition as_float (v : pyval) : result pyfloat :=
  match v with
  | VFloat f => Ok f
  | VInt z => float_of_int z
  | VBool b => Ok (Fin (if b then U else 0))
  | _ => Raise (Exception TypeError ("must be real number, not " +:+ type_name v))
  end.

Definition unsupported_operand (op : string) (v : pyval) : exception :=
  Exception TypeError
    ("unsupported operand type(s) for " +:+ op +:+ ": '" +:+ type_name v
     +:+ "' and 'float'").

(** The [TypeError] of [v + c] for a float [c], when [v] is no number:
    on a string or a list, [+] is a concatenation, which refuses a
    float. *)
Definition cannot_add (v : pyval) : exception :=
  match v with
  | VStr _ | VList _ =>
    Exception TypeError
      ("can only concatenate " +:+ type_name v +:+ " (not " +:+ dq
       +:+ "float" +:+ dq +:+ ") to " +:+ type_name v)
  | _ => unsupported_operand "+" v
  end.

(** The [TypeError] of [v * c] for a float [c], when [v] is no number:
    on a string or a list, [*] is a repetition, which refuses a
    float. *)
Definition cannot_multiply (v : pyval) : exception :=
  match v with
  | VStr _ | VList _ =>
    Exception TypeError "can't multiply sequence by non-int of type 'float'"
  | _ => unsupported_operand "*" v
  end.

(** [v + c] for a float constant [c]. *)
Definition add_float (v : pyval) (c : pyfloat) : result pyfloat :=
  match v with
  | VNone | VStr _ | VList _ | VDict _ => Raise (cannot_add v)
  | _ => x ← as_float v; mret (fadd x c)
  end.

(** [v * c] for a float constant [c]. *)
Definition mul_float (v : pyval) (c : pyfloat) : result pyfloat :=
  match v with
  | VNone | VStr _ | VList _ | VDict _ => Raise (cannot_multiply v)
  | _ => x ← as_float v; mret (fmul x c)
  end.

(** [v > 0]. *)
Definition gt_zero (v : pyval) : result bool :=
  match v with
  | VFloat f => Ok (fltb (Fin 0) f)
  | VInt z => Ok (0 <? z)
  | VBool b => Ok b
  | _ =>
    Raise (Exception TypeError
             ("'>' not supported between instances of '" +:+ type_name v
              +:+ "' and 'int'"))
  end.

(** ** The fetcher: [get_weather_data] *)

Definition f22_5 : pyfloat := float_of_decimal 225 1.
Definition f360 : pyfloat := Fin (360 * U).
Definition f0_75006 : pyfloat := float_of_decimal 75006 5.

Definition wind_direction_map : list string :=
  ["С"; "СВ"; "В"; "ЮВ"; "Ю"; "ЮЗ"; "З"; "СЗ"]%string.

(** [int((wd + 22.5) % 360) // 45] *)
Definition wind_index (wd : pyval) : result Z :=
  s ← add_float wd f22_5;
  i ← int_of_float (float_rem s f360);
  mret (i / 45).

Definition wind_direction_of (wd : pyval) : result string :=
  i ← wind_index wd; list_index wind_direction_map i.


(** The flat reading the fetcher returns (the dict of the source, whose
    six keys are fixed).  The same record is the content of a row of the
    table: there the four [Float] columns hold a float or [None]. *)
Record reading : Type := {
  temperature : pyval;
  wind_speed : pyval;
  wind_direction : string;
  pressure : pyval;
  precipitation_type : string;
  precipitation_amount : pyval
}.

(** [reading_of_json data]: the body of the [async with session.get]
    block, from [data = await response.json()] on. *)
Definition reading_of_json (data : pyval) : result reading :=
  current ← getitem data "current_weather";
  hourly ← getitem data "hourly";
  wd ← getitem current "winddirection";
  dir ← wind_direction_of wd;
  t ← getitem current "temperature";
  ws ← getitem current "windspeed";
  pm ← getitem hourly "pressure_msl";
  p0 ← getitem0 pm;
  p ← mul_float p0 f0_75006;
  pr ← getitem hourly "precipitation";
  a0 ← getitem0 pr;
  wet ← gt_zero a0;
  pr' ← getitem hourly "precipitation";
  a ← getitem0 pr';
  mret {| temperature := t;
          wind_speed := ws;
          wind_direction := dir;
          pressure := VFloat p;
          precipitation_type := if (wet : bool) then "rain" else "none";
          precipitation_amount := a |}.

(** *** The request *)

Definition SKOLTECH_LATITUDE : pyfloat := float_of_decimal 5569782222 8.
Definition SKOLTECH_LONGITUDE : pyfloat := float_of_decimal 3736156389 8.

Inductive param : Type :=
| PFloat (f : pyfloat)
| PBool (b : bool)
| PStr (s : string).

Definition base_url : string := "https://api.open-meteo.com/v1/forecast".

Definition hourly_metrics : string :=
  "temperature_2m,relativehumidity_2m,windspeed_10m,"
  +:+ "winddirection_10m,pressure_msl,precipitation".

Definition params : list (string * param) :=
  [ ("latitude", PFloat SKOLTECH_LATITUDE);
    ("longitude", PFloat SKOLTECH_LONGITUDE);
    ("current_weather", PBool true);
    ("hourly", PStr hourly_metrics) ]%string.

(** **** [repr] of a float: the shortest decimal that reads back as it *)

(** [10^e <= u / U < 10^(e+1)] for [0 < u]: the decimal exponent. *)
Fixpoint dec_exp_up (fuel : nat) (t : Z) (e : Z) : Z :=
  match fuel with
  | O => e
  | S fuel' => if t <? 10 then e else dec_exp_up fuel' (t / 10) (e + 1)
  end.

Fixpoint dec_exp_down (fuel : nat) (u : Z) (j : Z) : Z :=
  match fuel with
  | O => - j
  | S fuel' => if U <=? u * 10 ^ j then - j else dec_exp_down fuel' u (j + 1)
  end.

Definition dec_exp (u : Z) : Z :=
  if U <=? u then dec_exp_up 400 (u / U) 0 else dec_exp_down 400 u 1.

(** [u / U * 10^s] rounded to an integer, and [dg * 10^s] read as a
    float. *)
Definition scale_round (u s : Z) : Z :=
  if 0 <=? s then rhe (u * 10 ^ s) U else rhe u (U * 10 ^ (- s)).

Definition read_decimal (dg s : Z) : pyfloat :=
  if 0 <=? s then round53 (dg * 10 ^ s * U) 1 else round53 (dg * U) (10 ^ (- s)).

Definition pyfloat_eqb (x y : pyfloat) : bool :=
  match x, y with
  | Fin a, Fin b => a =? b
  | Inf a, Inf b => Bool.eqb a b
  | NaN, NaN => true
  | _, _ => false
  end.

(** The fewest digits [p <= 17] whose nearest [p]-digit decimal reads
    back as [u]: the digits as an integer and their power of ten. *)
Fixpoint shortest (fuel : nat) (u e p : Z) : Z * Z :=
  let dg := scale_round u (p - 1 - e) in
  match fuel with
  | O => (dg, e + 1 - p)
  | S fuel' =>
    if pyfloat_eqb (read_decimal dg (e + 1 - p)) (Fin u)
    then (dg, e + 1 - p)
    else shortest fuel' u e (p + 1)
  end.

Fixpoint strip_zeros (fuel : nat) (dg s : Z) : Z * Z :=
  match fuel with
  | O => (dg, s)
  | S fuel' =>
    if (dg mod 10 =? 0) && negb (dg =? 0)
    then strip_zeros fuel' (dg / 10) (s + 1) else (dg, s)
  end.

Definition zeros (n : Z) : string :=
  string_of_list_ascii (repeat "0"%char (Z.to_nat n)).

Definition substr_from (n : Z) (s : string) : string :=
  String.substring (Z.to_nat n) (String.length s - Z.to_nat n) s.

(** The text of a positive finite float, as [repr] lays it out: plain
    digits when the decimal point falls within [-4 < decpt <= 16],
    exponent notation otherwise. *)
Definition repr_pos (u : Z) : string :=
  let e := dec_exp u in
  let '(dg0, s0) := shortest 16 u e 1 in
  let '(dg, s) := strip_zeros 17 dg0 s0 in
  let ds := pretty dg in
  let nd := Z.of_nat (String.length ds) in
  let decpt := nd + s in
  if (-4 <? decpt) && (decpt <=? 16) then
    if decpt <=? 0 then "0." +:+ zeros (- decpt) +:+ ds
    else if nd <=? decpt then ds +:+ zeros (decpt - nd) +:+ ".0"
    else String.substring 0 (Z.to_nat decpt) ds +:+ "." +:+ substr_from decpt ds
  else
    let x := decpt - 1 in
    let xs := pretty (Z.abs x) in
    String.substring 0 1 ds
    +:+ (if 1 <? nd then "." +:+ substr_from 1 ds else "")
    +:+ "e" +:+ (if x <? 0 then "-" else "+")
    +:+ (if Z.abs x <? 10 then "0" else "") +:+ xs.

Definition float_repr (x : pyfloat) : string :=
  match x with
  | NaN => "nan"
  | Inf neg => if neg then "-inf" else "inf"
  | Fin u =>
    if u =? 0 then "0.0"
    else if u <? 0 then "-" +:+ repr_pos (- u) else repr_pos u
  end.

(** **** [urllib.parse.urlencode] *)

Definition str_of_param (v : param) : string :=
  match v with
  | PFloat f => float_repr f
  | PBool b => if b then "True" else "False"
  | PStr s => s
  end.

Definition is_unreserved (c : ascii) : bool :=
  let n := Z.of_N (N_of_ascii c) in
  ((48 <=? n) && (n <=? 57)) || ((65 <=? n) && (n <=? 90))
  || ((97 <=? n) && (n <=? 122))
  || (n =? 95) || (n =? 46) || (n =? 45) || (n =? 126).

Definition hex_digit (n : Z) : ascii :=
  ascii_of_N (Z.to_N (if n <? 10 then 48 + n else 55 + n)).

(** [quote_plus]: unreserved bytes are kept, a space becomes [+], every
    other byte becomes [%XX]. *)
Fixpoint quote_plus (s : string) : string :=
  match s with
  | EmptyString => EmptyString
  | String c s' =>
    let n := Z.of_N (N_of_ascii c) in
    if is_unreserved c then String c (quote_plus s')
    else if n =? 32 then String "+" (quote_plus s')
    else String "%" (String (hex_digit (n / 16))
                            (String (hex_digit (n mod 16)) (quote_plus s')))
  end.

Fixpoint join (sep : string) (l : list string) : string :=
  match l with
  | [] => ""
  | [x] => x
  | x :: l' => x +:+ sep +:+ join sep l'
  end.

Definition urlencode (q : list (string * param)) : string :=
  join "&" (map (fun kv => quote_plus (fst kv) +:+ "=" +:+ quote_plus (str_of_param (snd kv))) q).

Definition request_url : string := base_url +:+ "?" +:+ urlencode params.

(** [split(",")] of a string. *)
Fixpoint split_on (sep : ascii) (s : string) (cur : string) : list string :=
  match s with
  | EmptyString => [cur]
  | String c s' =>
    if Ascii.eqb c sep then cur :: split_on sep s' ""
    else split_on sep s' (cur +:+ String c "")
  end.

(** *** The network

    What the outside world answers to the script's requests.  A request
    either fails ([session.get] raises the exception [e]), or yields a
    response with a status and with what [response.json()] makes of it:
    the value parsed from the body ([None] for an empty body), or the
    exception it raises, a [ContentTypeError] when the content type is
    not JSON, a [JSONDecodeError] when the text is not JSON.  The
    exceptions of the library come with their text.  The session is
    created with its defaults, so the status is not looked at by the
    library either. *)

Inductive http_outcome : Type :=
| ConnectionFailed (e : exception)
| Response (status : Z) (body : result pyval).

Record network : Type := {
  answers : nat -> http_outcome;   (* the answer to the i-th request *)
  requests : list string           (* the URLs requested so far *)
}.

(** The request goes out; its answer comes in later, at the [await]. *)
Definition send (url : string) (n : network) : network :=
  {| answers := answers n; requests := requests n ++ [url] |}.

Definition receive (n : network) : http_outcome :=
  answers n (Nat.pred (length (requests n))).

Definition session_get (url : string) (n : network) : http_outcome * network :=
  (answers n (length (requests n)), send url n).

(** What the fetcher makes of an answer. *)
Definition outcome_reading (o : http_outcome) : result reading :=
  match o with
  | ConnectionFailed e => Raise e
  | Response _ body => data ← body; reading_of_json data
  end.

Definition get_weather_data (n : network) : result reading * network :=
  let '(o, n') := session_get request_url n in (outcome_reading o, n').

(** ** The store: table [weather_data] *)

Record row : Type := {
  id : Z;
  timestamp : Z;            (* a point in time, in microseconds *)
  data : reading
}.

(** [strftime] works on the fields of a local time. *)
Record datetime : Type := {
  year : Z; month : Z; day : Z; hour : Z; minute : Z; second : Z
}.

Inductive cell : Type :=
| CTime (t : Z)
| CVal (v : pyval)
| CStr (s : string).

Record DataFrame : Type := {
  columns : list string;
  rows : list (list (option cell))
}.

(** A file written by [to_excel(filename, index=False)]: the cells of
    the first row and the rows under it. *)
Record sheet : Type := {
  header : list string;
  body : list (list (option cell))
}.

(** The world of the script.  The two clocks hold what they read at the
    present moment.  Two things are left to the database library and are
    part of the world for that reason: the text of the exception that
    SQLAlchemy raises for an INSERT that fails (it quotes the statement
    and its parameters), and the row id that SQLite draws at random once
    the largest id is taken. *)
Record world : Type := {
  db : list row;                     (* the table, in insertion order *)
  net : network;
  utcnow : Z;                        (* datetime.utcnow() *)
  now : datetime;                    (* datetime.now() *)
  stdout : list string;              (* what was printed, oldest first *)
  files : list (string * sheet);     (* the files written, oldest first *)
  statement_error : Z -> reading -> string;
                                     (* str() of the error of a failed
                                        INSERT, made at a time for a reading *)
  random_rowid : list row -> option Z
                                     (* the free id drawn for a full table,
                                        if one is found *)
}.

Definition print (s : string) (w : world) : world :=
  {| db := db w; net := net w; utcnow := utcnow w; now := now w;
     stdout := stdout w ++ [s]; files := files w;
     statement_error := statement_error w; random_rowid := random_rowid w |}.

Definition with_net (n : network) (w : world) : world :=
  {| db := db w; net := n; utcnow := utcnow w; now := now w;
     stdout := stdout w; files := files w;
     statement_error := statement_error w; random_rowid := random_rowid w |}.

Definition with_db (t : list row) (w : world) : world :=
  {| db := t; net := net w; utcnow := utcnow w; now := now w;
     stdout := stdout w; files := files w;
     statement_error := statement_error w; random_rowid := random_rowid w |}.

(** Time passes: the clocks read later values. *)
Definition set_clock (utc : Z) (local : datetime) (w : world) : world :=
  {| db := db w; net := net w; utcnow := utc; now := local;
     stdout := stdout w; files := files w;
     statement_error := statement_error w; random_rowid := random_rowid w |}.

(** *** [float] of a string

    A [Float] column converts what it is given with [float].  For a
    string this is [PyFloat_FromString]: the characters are brought to
    ASCII, underscores between digits are dropped, blanks around are
    stripped, and the rest must be a decimal number, [inf], [infinity]
    or [nan], with an optional sign. *)

Definition code (c : ascii) : Z := Z.of_N (N_of_ascii c).

Definition codes (s : string) : list Z := map code (list_ascii_of_string s).

(** The code points of a UTF-8 text; -1 stands for bytes that are not
    a character. *)
Fixpoint utf8_decode (need : nat) (acc : Z) (s : string) : list Z :=
  match s with
  | EmptyString => match need with O => [] | S _ => [-1] end
  | String c s' =>
    let b := code c in
    match need with
    | O =>
      if b <? 128 then b :: utf8_decode 0 0 s'
      else if (192 <=? b) && (b <? 224) then utf8_decode 1 (b - 192) s'
      else if (224 <=? b) && (b <? 240) then utf8_decode 2 (b - 224) s'
      else if (240 <=? b) && (b <? 248) then utf8_decode 3 (b - 240) s'
      else -1 :: utf8_decode 0 0 s'
    | S n =>
      if (128 <=? b) && (b <? 192)
      then match n with
           | O => (acc * 64 + (b - 128)) :: utf8_decode 0 0 s'
           | S _ => utf8_decode n (acc * 64 + (b - 128)) s'
           end
      else -1 :: utf8_decode 0 0 s'
    end
  end.

(** The white space of Unicode outside ASCII. *)
Definition unicode_space (cp : Z) : bool :=
  (cp =? 0x85) || (cp =? 0xa0) || (cp =? 0x1680)
  || ((0x2000 <=? cp) && (cp <=? 0x200a))
  || (cp =? 0x2028) || (cp =? 0x2029) || (cp =? 0x202f) || (cp =? 0x205f)
  || (cp =? 0x3000).

(** The decimal digits of Unicode 15 outside ASCII (the table of
    CPython 3.12 and 3.13): each entry is the zero of a run of ten
    digits. *)
Definition decimal_zeros : list Z :=
  [ 0x660; 0x6f0; 0x7c0; 0x966; 0x9e6; 0xa66; 0xae6; 0xb66; 0xbe6; 0xc66;
    0xce6; 0xd66; 0xde6; 0xe50; 0xed0; 0xf20; 0x1040; 0x1090; 0x17e0;
    0x1810; 0x1946; 0x19d0; 0x1a80; 0x1a90; 0x1b50; 0x1bb0; 0x1c40; 0x1c50;
    0xa620; 0xa8d0; 0xa900; 0xa9d0; 0xa9f0; 0xaa50; 0xabf0; 0xff10;
    0x104a0; 0x10d30; 0x11066; 0x110f0; 0x11136; 0x111d0; 0x112f0; 0x11450;
    0x114d0; 0x11650; 0x116c0; 0x11730; 0x118e0; 0x11950; 0x11c50; 0x11d50;
    0x11da0; 0x11f50; 0x16a60; 0x16ac0; 0x16b50; 0x1d7ce; 0x1d7d8; 0x1d7e2;
    0x1d7ec; 0x1d7f6; 0x1e140; 0x1e2f0; 0x1e4f0; 0x1e950; 0x1fbf0 ].

Definition decimal_value (cp : Z) : option Z :=
  match List.find (fun z => (z <=? cp) && (cp <? z + 10)) decimal_zeros with
  | Some z => Some (cp - z)
  | None => None
  end.

(** [_PyUnicode_TransformDecimalAndSpaceToASCII], character by
    character: ASCII is kept, a space becomes a blank, a decimal digit
    its ASCII digit, anything else a question mark (which no number
    holds, so that what follows it does not matter). *)
Definition to_ascii (cp : Z) : Z :=
  if (0 <=? cp) && (cp <? 127) then cp
  else if unicode_space cp then 32
  else match decimal_value cp with
       | Some d => 48 + d
       | None => 63
       end.

Definition is_digit (c : Z) : bool := (48 <=? c) && (c <=? 57).

(** [_Py_string_to_number_with_underscores]: an underscore stands
    between two digits, or the text is refused; [prev] is the character
    before. *)
Fixpoint drop_underscores (prev : Z) (s : list Z) : option (list Z) :=
  match s with
  | [] => if prev =? 95 then None else Some []
  | c :: s' =>
    if c =? 95
    then (if is_digit prev then drop_underscores c s' else None)
    else if (prev =? 95) && negb (is_digit c) then None
    else r ← drop_underscores c s'; Some (c :: r)
  end.

(** [Py_ISSPACE] *)
Definition py_isspace (c : Z) : bool := (c =? 32) || ((9 <=? c) && (c <=? 13)).

Fixpoint lstrip_codes (s : list Z) : list Z :=
  match s with
  | [] => []
  | c :: s' => if py_isspace c then lstrip_codes s' else s
  end.

Definition strip_codes (s : list Z) : list Z :=
  rev (lstrip_codes (rev (lstrip_codes s))).

Fixpoint span_digits (s : list Z) : list Z * list Z :=
  match s with
  | [] => ([], [])
  | c :: s' =>
    if is_digit c then let '(d, r) := span_digits s' in (c :: d, r)
    else ([], s)
  end.

Definition digits_value (d : list Z) : Z :=
  fold_left (fun acc c => acc * 10 + (c - 48)) d 0.

Definition split_sign (s : list Z) : bool * list Z :=
  match s with
  | 45 :: s' => (true, s')
  | 43 :: s' => (false, s')
  | _ => (false, s)
  end.

Definition lower_code (c : Z) : Z :=
  if (65 <=? c) && (c <=? 90) then c + 32 else c.

Fixpoint codes_eqb (a b : list Z) : bool :=
  match a, b with
  | [], [] => true
  | x :: a', y :: b' => (x =? y) && codes_eqb a' b'
  | _, _ => false
  end.

(** [PyOS_string_to_double] on the whole text: a sign, then [inf],
    [infinity] or [nan] in any case of letters, or digits with an
    optional point and an optional exponent, at least one digit before
    or after the point.  The value is correctly rounded; it overflows to
    an infinity. *)
Definition parse_float (s : list Z) : option pyfloat :=
  let '(neg, s1) := split_sign s in
  let low := map lower_code s1 in
  if codes_eqb low (codes "inf") || codes_eqb low (codes "infinity")
  then Some (Inf neg)
  else if codes_eqb low (codes "nan") then Some NaN
  else
    let '(ip, s2) := span_digits s1 in
    let '(fp, s3) := match s2 with
                     | 46 :: r => span_digits r
                     | _ => ([], s2)
                     end in
    match ip ++ fp with
    | [] => None
    | _ :: _ =>
      let m := digits_value (ip ++ fp) in
      let m := if (neg : bool) then - m else m in
      let f := Z.of_nat (length fp) in
      match s3 with
      | [] => Some (read_decimal m (- f))
      | c :: r =>
        if (c =? 101) || (c =? 69) then
          let '(eneg, r1) := split_sign r in
          let '(ed, r2) := span_digits r1 in
          match ed, r2 with
          | _ :: _, [] =>
            let e := digits_value ed in
            Some (read_decimal m ((if (eneg : bool) then - e else e) - f))
          | _, _ => None
          end
        else None
      end
    end.

(** [float(s)] for a string: [None] when Python raises [ValueError]. *)
Definition float_of_str (s : string) : option pyfloat :=
  t ← drop_underscores 0 (map to_ascii (utf8_decode 0 0 s));
  parse_float (strip_codes t).

(** [float(v)]: [None] when Python raises ([ValueError] for a string
    that is no number, [TypeError] for [None], a list or a dict,
    [OverflowError] for an int that is too large). *)
Definition float_of_value (v : pyval) : option pyfloat :=
  match v with
  | VFloat f => Some f
  | VInt z => match float_of_int z with Ok f => Some f | Raise _ => None end
  | VBool b => Some (Fin (if b then U else 0))
  | VStr s => float_of_str s
  | _ => None
  end.

(** What a [Float] column keeps of a value bound to it: the bind
    processor of SQLAlchemy passes [None] on and calls [float] on
    anything else; SQLite stores a NaN as NULL, which reads back as
    [None].  [None] when [float] raises. *)
Definition float_column (v : pyval) : option pyval :=
  match v with
  | VNone => Some VNone
  | _ =>
    f ← float_of_value v;
    Some (match f with NaN => VNone | _ => VFloat f end)
  end.

(** The reading as the table keeps it: the four [Float] columns
    converted, the two [String] columns as they are. *)
Definition bind_row (d : reading) : option reading :=
  t ← float_column (temperature d);
  ws ← float_column (wind_speed d);
  p ← float_column (pressure d);
  a ← float_column (precipitation_amount d);
  Some {| temperature := t;
          wind_speed := ws;
          wind_direction := wind_direction d;
          pressure := p;
          precipitation_type := precipitation_type d;
          precipitation_amount := a |}.

(** The greatest row id of SQLite. *)
Definition max_rowid : Z := 2 ^ 63 - 1.

(** The id SQLite gives to a new row of a table with an integer primary
    key: 1 in an empty table, one more than the largest id otherwise;
    when the largest id is the greatest there is, an unused positive id
    drawn at random, [pick], if the draw finds one. *)
Definition next_id (t : list row) (pick : option Z) : option Z :=
  match map id t with
  | [] => Some 1
  | i :: l =>
    let m := fold_right Z.max i l in
    if m <? max_rowid then Some (m + 1)
    else
      match pick with
      | Some r =>
        if (0 <? r) && (r <=? max_rowid) && negb (existsb (Z.eqb r) (i :: l))
        then Some r else None
      | None => None
      end
  end.

(** [save_to_db]: one row more, holding the reading as the columns keep
    it, under the next id and with the time of the insertion as
    timestamp; or, when a value cannot be bound to its column or no id
    is left, the error of SQLAlchemy, and the table as it was. *)
Definition save_to_db (d : reading) (w : world) : result world :=
  match bind_row d, next_id (db w) (random_rowid w (db w)) with
  | Some d', Some i =>
    Ok (with_db (db w ++ [ {| id := i; timestamp := utcnow w; data := d' |} ]) w)
  | _, _ =>
    Raise (Exception StatementError (statement_error w (utcnow w) d))
  end.

(** [ORDER BY timestamp DESC]: [a] may stand before [b]. *)
Definition newer (a b : row) : Prop := timestamp b <= timestamp a.

#[global] Instance newer_dec (a b : row) : Decision (newer a b) :=
  Z_le_dec (timestamp b) (timestamp a).

(** [session.query(WeatherData).order_by(WeatherData.timestamp.desc())
    .limit(n).all()] *)
Definition mostRecent (n : nat) (t : list row) : list row :=
  take n (merge_sort newer t).

(** ** The exporter *)

Definition record_of_row (d : row) : list (string * cell) :=
  [ ("Timestamp", CTime (timestamp d));
    ("Temperature (°C)", CVal (temperature (data d)));
    ("Wind Speed (m/s)", CVal (wind_speed (data d)));
    ("Wind Direction", CStr (wind_direction (data d)));
    ("Pressure (mmHg)", CVal (pressure (data d)));
    ("Precipitation Type", CStr (precipitation_type (data d)));
    ("Precipitation Amount (mm)", CVal (precipitation_amount (data d))) ]%string.

Fixpoint field (k : string) (r : list (string * cell)) : option cell :=
  match r with
  | [] => None
  | (k', c) :: r' => if String.eqb k k' then Some c else field k r'
  end.

(** The keys of the records, each once, in the order they first occur. *)
Fixpoint add_keys (seen : list string) (ks : list string) : list string :=
  match ks with
  | [] => seen
  | k :: ks' =>
    if existsb (String.eqb k) seen then add_keys seen ks'
    else add_keys (seen ++ [k]) ks'
  end.

(** [pd.DataFrame(records)] for a list of dicts: the columns are the
    keys found in the records. *)
Definition DataFrame_of_records (recs : list (list (string * cell))) : DataFrame :=
  let cols := fold_left (fun seen r => add_keys seen (map fst r)) recs [] in
  {| columns := cols;
     rows := map (fun r => map (fun c => field c r) cols) recs |}.

Definition to_excel (df : DataFrame) : sheet :=
  {| header := columns df; body := rows df |}.

Definition pad (width : nat) (n : Z) : string :=
  let s := pretty n in
  string_of_list_ascii (repeat "0"%char (width - String.length s)) +:+ s.

(** [strftime("%Y%m%d_%H%M%S")] and [strftime("%Y-%m-%d %H:%M:%S")] *)
Definition strftime_compact (t : datetime) : string :=
  pad 4 (year t) +:+ pad 2 (month t) +:+ pad 2 (day t) +:+ "_"
  +:+ pad 2 (hour t) +:+ pad 2 (minute t) +:+ pad 2 (second t).

Definition strftime_human (t : datetime) : string :=
  pad 4 (year t) +:+ "-" +:+ pad 2 (month t) +:+ "-" +:+ pad 2 (day t) +:+ " "
  +:+ pad 2 (hour t) +:+ ":" +:+ pad 2 (minute t) +:+ ":" +:+ pad 2 (second t).

Definition export_filename (t : datetime) : string :=
  "weather_data_" +:+ strftime_compact t +:+ ".xlsx".

Definition export_message (filename : string) : string :=
  "Данные экспортированы в файл: " +:+ filename.

Definition write_file (name : string) (s : sheet) (w : world) : world :=
  {| db := db w; net := net w; utcnow := utcnow w; now := now w;
     stdout := stdout w; files := files w ++ [(name, s)];
     statement_error := statement_error w; random_rowid := random_rowid w |}.

(** [export_to_excel]: the value it returns to its caller, and the world
    it leaves.  The function has no [return] statement. *)
Definition export_to_excel (w : world) : pyval * world :=
  let rs := mostRecent 10 (db w) in
  let df := DataFrame_of_records (map record_of_row rs) in
  let filename := export_filename (now w) in
  let w1 := write_file filename (to_excel df) w in
  let w2 := print (export_message filename) w1 in
  (VNone, w2).

(** ** The poll loop: one iteration of [weather_loop], up to the sleep *)

Definition saved_message (t : datetime) : string :=
  nl +:+ "Данные о погоде сохранены: " +:+ strftime_human t.

Definition error_message (e : exception) : string :=
  "Произошла ошибка: " +:+ message e.

(** The [try] block once the fetch is over, with [r] what the fetch
    gave, and the [except] clause: the reading is saved and the
    confirmation printed, or the exception of the fetch or of the save
    is printed. *)
Definition store_and_report (r : result reading) (w : world) : world :=
  match d ← r; save_to_db d w with
  | Ok w' => print (saved_message (now w')) w'
  | Raise e => print (error_message e) w
  end.

Definition weather_loop_iter (w : world) : world :=
  let '(r, n') := get_weather_data (net w) in
  store_and_report r (with_net n' w).

(** ** The command loop *)

(** [str.lower] on the bytes of the line.  Only the ASCII capitals
    change: a character outside ASCII lowers to one outside ASCII (or
    to a [k], which neither command contains), so whether the lowered
    line equals ["export"] or ["exit"] is decided by this function as by
    Python's. *)
Definition lower_ascii (c : ascii) : ascii :=
  let n := N_of_ascii c in
  if (65 <=? n)%N && (n <=? 90)%N then ascii_of_N (n + 32) else c.

Fixpoint lower (s : string) : string :=
  match s with
  | EmptyString => EmptyString
  | String c s' => String (lower_ascii c) (lower s')
  end.

Definition prompt : string := "Введите команду (export/exit): ".
Definition farewell : string := "Завершение работы...".
Definition unknown_command : string :=
  "Неизвестная команда. Введите " +:+ dq +:+ "export" +:+ dq
  +:+ " или " +:+ dq +:+ "exit" +:+ dq +:+ ".".

Inductive status : Type :=
| Running
| Exited (code : Z).    (* os._exit(code) *)

(** The body of the [while True] of [handle_user_input] for one line
    read by [ainput]. *)
Definition handle_command (command : string) (w : world) : world * status :=
  if String.eqb (lower command) "export" then (snd (export_to_excel w), Running)
  else if String.eqb (lower command) "exit" then (print farewell w, Exited 0)
  else (print unknown_command w, Running).

(** The loop over the lines typed; it stops at [os._exit] and otherwise
    waits for the next line. *)
Fixpoint command_loop (lines : list string) (w : world) : world * status :=
  match lines with
  | [] => (print prompt w, Running)
  | command :: rest =>
    match handle_command command (print prompt w) with
    | (w', Running) => command_loop rest w'
    | (w', Exited c) => (w', Exited c)
    end
  end.

(** ** The rest of the script: banner, loops and [main] *)

(** [print_instructions]: its [print] calls, the first one last. *)
Definition rule50 : string := string_of_list_ascii (repeat "="%char 50).

Definition print_instructions (w : world) : world :=
  print (nl +:+ "Ожидание ввода команды...")
  (print ("3. Для выхода из программы введите " +:+ dq +:+ "exit" +:+ dq +:+ ".")
  (print ("2. Для экспорта последних 10 записей в Excel файл, введите "
          +:+ dq +:+ "export" +:+ dq +:+ ".")
  (print "1. Скрипт автоматически собирает данные о погоде каждые 3 минуты."
  (print (nl +:+ "Инструкция по использованию:")
  (print rule50
  (print "Скрипт сбора данных о погоде запущен и работает."
  (print (nl +:+ rule50) w))))))).

(** [handle_user_input] on the lines typed. *)
Definition handle_user_input (lines : list string) (w : world) : world * status :=
  command_loop lines (print_instructions w).

(** [weather_loop] on its own, stopped after as many iterations as
    [clocks] has entries: an iteration ends with [asyncio.sleep(180)],
    and when the sleep is over the clocks read the values of the
    entry. *)
Fixpoint weather_loop (clocks : list (Z * datetime)) (w : world) : world :=
  match clocks with
  | [] => w
  | (utc, local) :: rest =>
    weather_loop rest (set_clock utc local (weather_loop_iter w))
  end.

(** [main]: the two loops run on one thread and take turns at their
    [await]s.  The poll loop is either waiting for the answer to the
    request it has sent, or sleeping.  An event is one turn: [Tick],
    the poll loop goes on (the answer has come in and the iteration is
    finished, or the sleep is over and the next request goes out);
    [Line c], a line has been read and is handled; [Clock], time has
    passed and the clocks read new values.  [os._exit] ends both
    loops. *)
Inductive event : Type :=
| Tick
| Line (command : string)
| Clock (utc : Z) (local : datetime).

Inductive poll : Type :=
| Waiting     (* at the await of session.get or of response.json() *)
| Sleeping.   (* at the await of asyncio.sleep(180) *)

Definition poll_step (p : poll) (w : world) : poll * world :=
  match p with
  | Waiting => (Sleeping, store_and_report (outcome_reading (receive (net w))) w)
  | Sleeping => (Waiting, with_net (send request_url (net w)) w)
  end.

Fixpoint run (events : list event) (p : poll) (w : world) : world * status :=
  match events with
  | [] => (w, Running)
  | Tick :: rest => run rest (fst (poll_step p w)) (snd (poll_step p w))
  | Clock utc local :: rest => run rest p (set_clock utc local w)
  | Line command :: rest =>
    match handle_command command w with
    | (w', Running) => run rest p (print prompt w')
    | (w', Exited c) => (w', Exited c)
    end
  end.

(** [asyncio.gather] starts [weather_loop] first, which runs up to its
    first [await]: the first request is out before [handle_user_input]
    prints the instructions and asks for a line. *)
Definition main (events : list event) (w : world) : world * status :=
  run events Waiting
      (print prompt
         (print_instructions
            (with_net (send request_url (net w))
               (print "Запуск скрипта сбора данных о погоде..." w)))).

(** ** The specification's reading of the same operations

    Definitions that follow the words of the specification where they
    differ from the code, to compare the two. *)

(** 22.5 in units. *)
Definition H22_5 : Z := 45 * 2 ^ 1073.

(** The number of degrees as a count of units, without rounding. *)
Definition degrees_units (wd : pyval) : option Z :=
  match wd with
  | VInt z => Some (z * U)
  | VFloat (Fin a) => Some a
  | _ => None
  end.

(** "index = floor(((degrees + 22.5) mod 360) / 45)", on the number of
    degrees itself: the sum, the remainder and the quotient are those
    of the rationals, nothing is rounded. *)
Definition spec_wind_index (wd : pyval) : option Z :=
  a ← degrees_units wd; Some (((a + H22_5) mod (360 * U)) / (45 * U)).

Definition is_space (c : ascii) : bool :=
  let n := Z.of_N (N_of_ascii c) in
  (n =? 32) || ((9 <=? n) && (n <=? 13)) || ((28 <=? n) && (n <=? 31)).

Fixpoint lstrip (s : string) : string :=
  match s with
  | EmptyString => EmptyString
  | String c s' => if is_space c then lstrip s' else s
  end.

Fixpoint rstrip (s : string) : string :=
  match s with
  | EmptyString => EmptyString
  | String c s' =>
    match rstrip s' with
    | EmptyString => if is_space c then EmptyString else String c EmptyString
    | t => String c t
    end
  end.

(** "Case-insensitive match on trimmed input". *)
Definition spec_command (line : string) : string := lower (rstrip (lstrip line)).

Definition export_labels : list string :=
  [ "Timestamp"; "Temperature (°C)"; "Wind Speed (m/s)"; "Wind Direction";
    "Pressure (mmHg)"; "Precipitation Type"; "Precipitation Amount (mm)" ]%string.

(** ** The vocabulary of the statements

    Inputs, predicates and checks that the theorems are stated with. *)

(** The inputs of claim C1: an angle in [0, 360), as a JSON integer or
    as a JSON real. *)
Definition degrees_in_0_360 (wd : pyval) : Prop :=
  match wd with
  | VInt z => 0 <= z < 360
  | VFloat (Fin a) => 0 <= a < 360 * U
  | _ => False
  end.

(** A count of units that is a binary64 value: rounding leaves it as it
    is. *)
Definition binary64 (a : Z) : Prop := round53 a 1 = Fin a.

Definition period_check (n : nat) : bool :=
  let z := Z.of_nat n in
  ((2 * ((z + 45) mod 360) + 45) mod 720) / 90
  =? (((2 * z + 45) mod 720) / 90 + 1) mod 8.

(** The model's arithmetic against the kernel's binary64 floats, on
    inputs that cover exact and rounded sums and products, ties,
    subnormal results, overflow and the special values. *)
Definition agrees (ab : PrimFloat.float * PrimFloat.float) : bool :=
  let '(a, b) := ab in
  pyfloat_eqb (of_prim (a + b)%float) (fadd (of_prim a) (of_prim b))
  && pyfloat_eqb (of_prim (a * b)%float) (fmul (of_prim a) (of_prim b)).

Definition samples : list (PrimFloat.float * PrimFloat.float) :=
  [ (0, 1); (1, -1); (22.5, 0.75006); (1013.25, 0.75006);
    (-22.500000000000004, 22.5); (22.499999999999996, 22.5);
    (-3.5527136788005009e-15, 360); (359.99999999999994, 22.5);
    (0.1, 0.2); (0.3, 0.1); (1e16, 1); (9007199254740993, 3);
    (1e308, 1e308); (-1e308, 1e308); (1.7976931348623157e308, 1e292);
    (5e-324, 5e-324); (5e-324, 0.5); (1e-320, 0.3);
    (2.2250738585072014e-308, 0.5); (1e-160, 1e-170); (4.9e-200, 1e-124);
    (1e200, 1e150); (1e22, 1e23); (2.5, 337.5);
    (infinity, neg_infinity); (infinity, 0); (infinity, -2.5);
    (nan, 1); (neg_infinity, neg_infinity) ]%float.

(** [float] of a string against the kernel's reading of the same
    decimal: the text, and the float it must give ([None] when the text
    is refused). *)
Definition float_of_str_samples : list (string * option PrimFloat.float) :=
  [ ("12.5", Some 12.5); (" 1e3 ", Some 1000); ("nan", Some nan);
    ("-nan", Some nan); ("+inf", Some infinity); ("Infinity", Some infinity);
    (" -INFINITY", Some neg_infinity); ("iNf", Some infinity);
    ("infin", None); ("1_0", Some 10); ("1__0", None); ("_1", None);
    ("1_", None); ("1_.5", None); ("1e1_0", Some 1e10); ("1 _0", None);
    ("5.", Some 5); (".5", Some 0.5); (".", None); ("1.e5", Some 1e5);
    (".e5", None); ("e5", None); ("1e", None); ("1e+", None);
    ("0x10", None); ("١٢", Some 12); ("١٢٫٥", None); ("１２", Some 12);
    ("", None); ("  ", None); ("1e999", Some infinity);
    ("-1e999", Some neg_infinity); ("1e-999", Some 0); ("--1", None);
    ("+-1", None); ("+ 1", None); ("1,5", None); ("-0", Some 0);
    ("00012", Some 12); ("1_000.000_1e0_1", Some 10000.001);
    ("+.5", Some 0.5); ("-.5e-3", Some (-0.0005)); ("+", None);
    ("nan1", None); ("1.5.2", None); ("1E5", Some 1e5);
    ("1e-05", Some 1e-05); ("0.1", Some 0.1); ("759.998295", Some 759.998295);
    ("2.2250738585072014e-308", Some 2.2250738585072014e-308);
    ("5e-324", Some 5e-324); ("1.7976931348623157e308", Some 1.7976931348623157e308);
    ("9007199254740993", Some 9007199254740992);
    ("warm", None); ("24,5", None) ]%string%float.

Definition float_of_str_agrees (sf : string * option PrimFloat.float) : bool :=
  match float_of_str (fst sf), snd sf with
  | Some x, Some f => pyfloat_eqb x (of_prim f)
  | None, None => true
  | _, _ => false
  end.

(** The JSON number [-22.500000000000004]: the binary64 value next
    below -22.5. *)
Definition wd_below : pyfloat := Fin (- (H22_5 + 2 ^ 1026)).

(** The JSON number [22.499999999999996]: the binary64 value next
    below 22.5. *)
Definition wd_tie : pyfloat := Fin (H22_5 - 2 ^ 1026).

(** A response body with the given wind direction, first hourly
    pressure and first hourly precipitation. *)
Definition body_of (wd p a : pyval) : pyval :=
  VDict [ ("current_weather",
           VDict [ ("temperature", VFloat (float_of_decimal 24 1));
                   ("windspeed", VFloat (float_of_decimal 119 1));
                   ("winddirection", wd) ]);
          ("hourly",
           VDict [ ("pressure_msl", VList [p]);
                   ("precipitation", VList [a]) ]) ]%string.

(** The first entry of an hourly series of the body. *)
Definition hourly_first (key : string) (data : pyval) : result pyval :=
  h ← getitem data "hourly"; l ← getitem h key; getitem0 l.

(** "precipitation_amount > 0", read on the value itself. *)
Definition positive_amount (v : pyval) : Prop :=
  match v with
  | VFloat (Fin u) => 0 < u
  | VFloat (Inf neg) => neg = false
  | VInt z => 0 < z
  | VBool b => b = true
  | _ => False
  end.

Definition rain_iff_positive (r : reading) : Prop :=
  (precipitation_type r = "rain"%string <-> positive_amount (precipitation_amount r))
  /\ (precipitation_type r = "none"%string <-> ~ positive_amount (precipitation_amount r)).

(** The response used in the examples: 1013.25 hPa, wind from the
    East, no precipitation. *)
Definition body_1013_25 : pyval :=
  body_of (VInt 90) (VFloat (float_of_decimal 101325 2)) (VInt 0).

(** A body whose temperature is a text that is no number. *)
Definition body_warm : pyval :=
  VDict [ ("current_weather",
           VDict [ ("temperature", VStr "warm");
                   ("windspeed", VFloat (float_of_decimal 119 1));
                   ("winddirection", VInt 90) ]);
          ("hourly",
           VDict [ ("pressure_msl", VList [VFloat (float_of_decimal 101325 2)]);
                   ("precipitation", VList [VInt 0]) ]) ]%string.

(** Three rows, stored in the order of their ids, the second one being
    the newest. *)
Definition three_rows (d : reading) : list row :=
  [ {| id := 1; timestamp := 5; data := d |};
    {| id := 2; timestamp := 9; data := d |};
    {| id := 3; timestamp := 7; data := d |} ].

(** A world with an empty store, nothing printed and no file, at
    2024-03-07 09:05:01 local time; every request fails. *)
Definition world0 : world :=
  {| db := [];
     net := {| answers := fun _ =>
                 ConnectionFailed
                   (Exception ClientError "Cannot connect to host");
               requests := [] |};
     utcnow := 0;
     now := {| year := 2024; month := 3; day := 7;
               hour := 9; minute := 5; second := 1 |};
     stdout := [];
     files := [];
     statement_error := fun _ _ => "(the INSERT failed)"%string;
     random_rowid := fun _ => None |}.

(** The fields the fetcher reads in the body, as paths of keys. *)
Definition expected_fields : list (list string) :=
  [ ["current_weather"; "temperature"];
    ["current_weather"; "windspeed"];
    ["current_weather"; "winddirection"];
    ["hourly"; "pressure_msl"];
    ["hourly"; "precipitation"] ]%string.

Definition lookup_path (path : list string) (v : pyval) : result pyval :=
  fold_left (fun (acc : result pyval) (k : string) => x ← acc; getitem x k)
            path (Ok v).

(** A network whose every answer is [o]. *)
Definition always (o : http_outcome) : network :=
  {| answers := fun _ => o; requests := [] |}.

(** The ids of the table grow with the order of insertion. *)
Definition ids_increasing (t : list row) : Prop :=
  StronglySorted Z.lt (map id t).

(** There is room for [n] more rows under the greatest row id. *)
Definition room (n : nat) (t : list row) : Prop :=
  Z.of_nat n <= max_rowid
  /\ Forall (fun x => id x + Z.of_nat n <= max_rowid) t.

Definition is_exit (e : event) : bool :=
  match e with
  | Line c => String.eqb (lower c) "exit"
  | _ => false
  end.

Definition is_export (e : event) : bool :=
  match e with
  | Line c => String.eqb (lower c) "export"
  | _ => false
  end.

Definition is_tick (e : event) : bool :=
  match e with
  | Tick => true
  | _ => false
  end.

(** The events that take place: those up to the first [exit] line. *)
Fixpoint until_exit (events : list event) : list event :=
  match events with
  | [] => []
  | e :: rest => if is_exit e then [e] else e :: until_exit rest
  end.

Definition count (f : event -> bool) (events : list event) : nat :=
  length (List.filter f events).

(** Of [k] turns of the poll loop, the first of which finds it in the
    state [p]: how many send a request, and how many finish an
    iteration. *)
Fixpoint sends (p : poll) (k : nat) : nat :=
  match k, p with
  | O, _ => O
  | S k', Sleeping => S (sends Waiting k')
  | S k', Waiting => sends Sleeping k'
  end.

Fixpoint arrivals (p : poll) (k : nat) : nat :=
  match k, p with
  | O, _ => O
  | S k', Waiting => S (arrivals Sleeping k')
  | S k', Sleeping => arrivals Waiting k'
  end.

(** What holds of every row that the script stores: the direction is
    one of the eight labels, the type of the precipitation goes with
    its amount, and each of the four [Float] columns holds a float that
    is not a NaN, or [None]. *)
Definition real_or_null (v : pyval) : Prop :=
  match v with
  | VNone => True
  | VFloat NaN => False
  | VFloat _ => True
  | _ => False
  end.

Definition row_ok (x : row) : Prop :=
  In (wind_direction (data x)) wind_direction_map
  /\ rain_iff_positive (data x)
  /\ real_or_null (temperature (data x))
  /\ real_or_null (wind_speed (data x))
  /\ real_or_null (pressure (data x))
  /\ real_or_null (precipitation_amount (data x)).

(** A world whose network gives the same answer to every request. *)
Definition answering (o : http_outcome) (w : world) : world :=
  with_net {| answers := fun _ => o; requests := requests (net w) |} w.

(** The reading that [body_1013_25] gives, and the reading the table
    keeps of it. *)
Definition reading_1013_25 : reading :=
  Eval vm_compute in
    match reading_of_json body_1013_25 with
    | Ok d => d
    | Raise _ => Build_reading VNone VNone "" VNone "" VNone
    end.

Definition stored_1013_25 : reading :=
  Eval vm_compute in
    match bind_row reading_1013_25 with
    | Some d => d
    | None => Build_reading VNone VNone "" VNone "" VNone
    end.

(** A world whose table holds one row, stored at time 100, and whose
    clock reads 200. *)
Definition world1 : world :=
  set_clock 200 (now world0)
    (with_db [ {| id := 1; timestamp := 100; data := stored_1013_25 |} ] world0).

(* ===================================================================== *)
(** * Part II: lemmas and theorems                                        *)
(* ===================================================================== *)

Example f22_5_units : f22_5 = Fin (45 * 2 ^ 1073).
Proof. vm_compute. reflexivity. Qed.

(** Closed goals, one conjunct after the other, by evaluation. *)
Ltac compute_each :=
  repeat (split; [vm_compute; reflexivity|]); vm_compute; reflexivity.

(** ** Rounding *)

Section Rounding.

Lemma U_pos : 0 < U.
Proof. unfold U. apply Z.pow_pos_nonneg; lia. Qed.

Lemma U_OVF : 4000 * U < OVF.
Proof. apply Z.ltb_lt. vm_compute. reflexivity. Qed.

Lemma rhe_bounds (n d : Z) :
  0 < d -> n / d <= rhe n d <= n / d + 1.
Proof.
  intros Hd. unfold rhe.
  destruct (2 * (n mod d) ?= d); [destruct (Z.even (n / d))|..]; lia.
Qed.

(** Rounding to the nearest integer never crosses an integer. *)
Lemma rhe_le (n d N : Z) : 0 < d -> n <= N * d -> rhe n d <= N.
Proof.
  intros Hd Hn. unfold rhe.
  pose proof (Z.mod_pos_bound n d Hd) as Hr.
  pose proof (Z.div_mod n d ltac:(lia)) as Hq.
  assert (n / d <= N) by nia.
  destruct (Z.compare_spec (2 * (n mod d)) d);
    [destruct (Z.even (n / d))|..]; nia.
Qed.

Lemma rhe_ge (n d N : Z) : 0 < d -> N * d <= n -> N <= rhe n d.
Proof.
  intros Hd Hn. pose proof (rhe_bounds n d Hd).
  assert (N <= n / d) by (apply Z.div_le_lower_bound; lia). lia.
Qed.

(** The number of bits dropped by [round53] is small next to the
    value rounded. *)
Lemma drop_pow_le (t : Z) :
  0 <= t -> 2 ^ Z.max 0 (Z.log2 t + 1 - 53) <= Z.max 1 t.
Proof.
  intros Ht. destruct (Z.max_spec 0 (Z.log2 t + 1 - 53)) as [[Hk ->]|[Hk ->]].
  - assert (0 < t) by (destruct (Z.eq_dec t 0) as [->|]; [simpl in Hk|]; lia).
    pose proof (Z.log2_spec t ltac:(lia)) as [Hlo _].
    assert (2 ^ (Z.log2 t + 1 - 53) <= 2 ^ Z.log2 t)
      by (apply Z.pow_le_mono_r; lia).
    lia.
  - rewrite Z.pow_0_r. lia.
Qed.

(** A non-negative exact result rounds to a non-negative float, and
    to a finite one when it is far from the overflow threshold. *)
Lemma round53_nonneg (n d : Z) :
  0 <= n -> 0 < d -> 2 * (n / d) + 1 < OVF ->
  exists r, round53 n d = Fin r /\ 0 <= r <= 2 * (n / d) + 1.
Proof.
  intros Hn Hd Hovf. unfold round53. rewrite (Z.abs_eq n Hn).
  set (t := n / d) in *.
  assert (0 <= t) as Ht by (apply Z.div_pos; lia).
  pose proof (drop_pow_le t Ht) as Hg.
  set (k := Z.max 0 (Z.log2 t + 1 - 53)) in *.
  assert (0 < 2 ^ k) as Hp by (apply Z.pow_pos_nonneg; lia).
  pose proof (rhe_bounds n (d * 2 ^ k) ltac:(nia)) as [Hlo Hhi].
  rewrite <- Z.div_div in Hlo, Hhi by lia. fold t in Hlo, Hhi.
  pose proof (Z.mul_div_le t (2 ^ k) Hp) as Hfl.
  assert (0 <= t / 2 ^ k) by (apply Z.div_pos; lia).
  set (m := rhe n (d * 2 ^ k)) in *.
  assert (m * 2 ^ k < OVF) as Hlt by nia.
  apply Z.leb_gt in Hlt. rewrite Hlt.
  eexists; split; [reflexivity|].
  assert (0 <= m * 2 ^ k) by nia.
  destruct (Z.eq_dec n 0) as [->|Hn0]; [rewrite Z.sgn_0; lia|].
  rewrite Z.sgn_pos by lia. nia.
Qed.

Lemma round53_opp (n : Z) :
  round53 (- n) 1
  = match round53 n 1 with
    | Fin r => Fin (- r)
    | Inf b => Inf (negb b)
    | NaN => NaN
    end.
Proof.
  destruct (Z.eq_dec n 0) as [->|Hn0]; [vm_compute; reflexivity|].
  unfold round53. rewrite Z.abs_opp, Z.sgn_opp.
  destruct (OVF <=? _) eqn:E.
  - f_equal.
    destruct (Z.ltb_spec n 0), (Z.ltb_spec (- n) 0); try reflexivity;
      exfalso; lia.
  - f_equal. lia.
Qed.

(** Whatever is rounded, the result is a float of the same sign, or an
    infinity: never a NaN. *)
Lemma round53_sign (n : Z) :
  (exists r, round53 n 1 = Fin r /\ (0 <= n -> 0 <= r) /\ (n <= 0 -> r <= 0))
  \/ (exists b, round53 n 1 = Inf b).
Proof.
  unfold round53. destruct (OVF <=? _); [right; eexists; reflexivity|].
  left. eexists. split; [reflexivity|].
  rewrite Z.div_1_r, Z.mul_1_l.
  set (k := Z.max 0 (Z.log2 (Z.abs n) + 1 - 53)).
  assert (0 < 2 ^ k) as Hp by (apply Z.pow_pos_nonneg; lia).
  pose proof (rhe_bounds (Z.abs n) (2 ^ k) Hp) as [Hlo _].
  assert (0 <= Z.abs n / 2 ^ k) by (apply Z.div_pos; lia).
  assert (0 <= rhe (Z.abs n) (2 ^ k) * 2 ^ k) as Hu by nia.
  split; intros Hn.
  - pose proof (Z.sgn_nonneg n). nia.
  - pose proof (Z.sgn_nonpos n). nia.
Qed.

(** A positive number does not round to zero. *)
Lemma round53_pos (n r : Z) : 0 < n -> round53 n 1 = Fin r -> 0 < r.
Proof.
  intros Hn. unfold round53. destruct (OVF <=? _); [discriminate|].
  intros [= <-]. rewrite Z.div_1_r, Z.mul_1_l, Z.abs_eq, Z.sgn_pos by lia.
  pose proof (drop_pow_le n ltac:(lia)) as Hg.
  set (k := Z.max 0 (Z.log2 n + 1 - 53)) in *.
  assert (0 < 2 ^ k) as Hp by (apply Z.pow_pos_nonneg; lia).
  pose proof (rhe_ge n (2 ^ k) 1 Hp ltac:(lia)). nia.
Qed.

(** A multiple of [2^j] rounds to a multiple of [2^j]. *)
Lemma round53_multiple (n j r : Z) :
  0 <= j -> (2 ^ j | n) -> round53 n 1 = Fin r -> (2 ^ j | r).
Proof.
  intros Hj Hdiv. unfold round53. destruct (OVF <=? _); [discriminate|].
  intros [= <-]. rewrite Z.div_1_r, Z.mul_1_l.
  apply Z.divide_mul_r.
  apply Z.divide_abs_r in Hdiv.
  set (a := Z.abs n) in *.
  set (k := Z.max 0 (Z.log2 a + 1 - 53)).
  assert (0 <= k) as Hk by lia.
  assert (0 < 2 ^ k) as Hp by (apply Z.pow_pos_nonneg; lia).
  destruct (Z_le_gt_dec j k) as [Hjk|Hjk].
  - apply Z.divide_mul_r. exists (2 ^ (k - j)).
    rewrite <- Z.pow_add_r by lia. f_equal. lia.
  - assert ((2 ^ k | a)) as [q Hq].
    { apply Z.divide_trans with (2 ^ j); [|exact Hdiv].
      exists (2 ^ (j - k)). rewrite <- Z.pow_add_r by lia. f_equal. lia. }
    assert (rhe a (2 ^ k) = q) as ->.
    { unfold rhe. rewrite Hq, Z.mod_mul, Z.div_mul by lia.
      destruct (Z.compare_spec (2 * 0) (2 ^ k)); [lia|reflexivity|lia]. }
    rewrite <- Hq. exact Hdiv.
Qed.

Lemma OVF_large : 2 ^ 53 * 2 ^ 1074 < OVF.
Proof. apply Z.ltb_lt. vm_compute. reflexivity. Qed.

(** The bits dropped when a number under [2^53] is rounded: at most
    1074. *)
Lemma drop_bits_small (n : Z) :
  0 <= n < 2 ^ 53 * U -> 0 <= Z.max 0 (Z.log2 n + 1 - 53) <= 1074.
Proof.
  intros Hn. split; [lia|]. apply Z.max_lub; [lia|].
  destruct (Z.eq_dec n 0) as [->|Hn0]; [cbn; lia|].
  assert (n < 2 ^ (53 + 1074))
    by (rewrite Z.pow_add_r by lia; fold U; lia).
  assert (Z.log2 n < 53 + 1074) by (apply Z.log2_lt_pow2; lia). lia.
Qed.

(** Below a whole number of units that is itself a float, the rounded
    value stays below it. *)
Lemma round53_le_multiple (n c : Z) :
  0 <= n <= c * U -> c < 2 ^ 53 ->
  exists r, round53 n 1 = Fin r /\ 0 <= r <= c * U.
Proof.
  intros Hn Hc. pose proof U_pos as HU. pose proof OVF_large as HO.
  assert (2 ^ 53 = 9007199254740992) as H53 by reflexivity.
  unfold round53. rewrite Z.abs_eq, Z.div_1_r, Z.mul_1_l by lia.
  pose proof (drop_bits_small n ltac:(nia)) as Hk.
  set (k := Z.max 0 (Z.log2 n + 1 - 53)) in *.
  assert (0 < 2 ^ k) as Hp by (apply Z.pow_pos_nonneg; lia).
  assert (U = 2 ^ (1074 - k) * 2 ^ k) as HUk
    by (unfold U; rewrite <- Z.pow_add_r by lia; f_equal; lia).
  assert (0 < 2 ^ (1074 - k)) by (apply Z.pow_pos_nonneg; lia).
  pose proof (rhe_le n (2 ^ k) (c * 2 ^ (1074 - k)) Hp ltac:(nia)) as Hhi.
  pose proof (rhe_ge n (2 ^ k) 0 Hp ltac:(lia)) as Hlo.
  set (m := rhe n (2 ^ k)) in *.
  assert (m * 2 ^ k <= c * U) as Hle by nia.
  fold U in HO.
  destruct (Z.leb_spec OVF (m * 2 ^ k)); [nia|].
  eexists. split; [reflexivity|].
  destruct (Z.eq_dec n 0) as [->|Hn0]; [rewrite Z.sgn_0; nia|].
  rewrite Z.sgn_pos by lia. nia.
Qed.

(** And above such a number, the rounded value stays above it. *)
Lemma round53_ge_multiple (n c r : Z) :
  0 <= c -> c * U <= n < 2 ^ 53 * U -> round53 n 1 = Fin r -> c * U <= r.
Proof.
  intros Hc Hn. pose proof U_pos as HU.
  unfold round53. destruct (OVF <=? _); [discriminate|]. intros [= <-].
  rewrite Z.abs_eq, Z.div_1_r, Z.mul_1_l by nia.
  pose proof (drop_bits_small n ltac:(nia)) as Hk.
  set (k := Z.max 0 (Z.log2 n + 1 - 53)) in *.
  assert (0 < 2 ^ k) as Hp by (apply Z.pow_pos_nonneg; lia).
  assert (U = 2 ^ (1074 - k) * 2 ^ k) as HUk
    by (unfold U; rewrite <- Z.pow_add_r by lia; f_equal; lia).
  assert (0 < 2 ^ (1074 - k)) by (apply Z.pow_pos_nonneg; lia).
  pose proof (rhe_ge n (2 ^ k) (c * 2 ^ (1074 - k)) Hp ltac:(nia)) as Hlo.
  set (m := rhe n (2 ^ k)) in *.
  assert (c * U <= m * 2 ^ k) as Hle by nia.
  destruct (Z.eq_dec n 0) as [E|Hn0].
  - assert (c = 0) as -> by nia. rewrite E, Z.sgn_0. lia.
  - rewrite Z.sgn_pos by nia. lia.
Qed.

(** A number with at most 53 significant bits is a float: rounding
    leaves it as it is. *)
Lemma round53_exact (m j : Z) :
  0 <= j -> 0 <= m < 2 ^ 53 -> m * 2 ^ j < OVF ->
  round53 (m * 2 ^ j) 1 = Fin (m * 2 ^ j).
Proof.
  intros Hj Hm Hovf. unfold round53.
  assert (0 < 2 ^ j) as Hpj by (apply Z.pow_pos_nonneg; lia).
  assert (0 <= m * 2 ^ j) as Hn by nia.
  rewrite (Z.abs_eq _ Hn), Z.div_1_r, Z.mul_1_l.
  set (n := m * 2 ^ j) in *.
  set (k := Z.max 0 (Z.log2 n + 1 - 53)).
  assert (0 <= k <= j) as Hk.
  { subst k. split; [lia|]. apply Z.max_lub; [lia|].
    destruct (Z.eq_dec n 0) as [->|Hn0]; [cbn; lia|].
    assert (n < 2 ^ (53 + j)) by (rewrite Z.pow_add_r by lia; subst n; nia).
    assert (Z.log2 n < 53 + j) by (apply Z.log2_lt_pow2; lia). lia. }
  assert (0 < 2 ^ k) as Hpk by (apply Z.pow_pos_nonneg; lia).
  assert (n = m * 2 ^ (j - k) * 2 ^ k) as Hdiv.
  { subst n. rewrite <- Z.mul_assoc, <- Z.pow_add_r by lia. do 2 f_equal. lia. }
  assert (rhe n (2 ^ k) = m * 2 ^ (j - k)) as Hr.
  { unfold rhe. rewrite Hdiv, Z.mod_mul, Z.div_mul by lia.
    destruct (Z.compare_spec (2 * 0) (2 ^ k)); [lia|reflexivity|lia]. }
  rewrite Hr, <- Hdiv.
  destruct (Z.leb_spec OVF n); [lia|].
  f_equal. destruct (Z.eq_dec n 0) as [->|Hn0]; [reflexivity|].
  rewrite Z.sgn_pos by lia. lia.
Qed.

(** A float of at least [2^(53+j)] units is a multiple of [2^(j+1)]:
    its last place is that far up. *)
Lemma binary64_multiple (a j : Z) :
  0 <= j -> 2 ^ (53 + j) <= a -> binary64 a -> (2 ^ (j + 1) | a).
Proof.
  intros Hj Ha. unfold binary64, round53.
  assert (0 < 2 ^ (53 + j)) as Hp by (apply Z.pow_pos_nonneg; lia).
  destruct (OVF <=? _); [discriminate|]. intros [= E].
  rewrite Z.abs_eq, Z.div_1_r, Z.mul_1_l, Z.sgn_pos, Z.mul_1_l in E by lia.
  assert (53 + j <= Z.log2 a) as Hl by (apply Z.log2_le_pow2; lia).
  rewrite Z.max_r in E by lia.
  rewrite <- E.
  apply Z.divide_mul_r.
  exists (2 ^ (Z.log2 a + 1 - 53 - (j + 1))).
  rewrite <- Z.pow_add_r by lia. f_equal. lia.
Qed.

Lemma div_between (s q d : Z) : 0 < d -> q * d <= s < (q + 1) * d -> s / d = q.
Proof.
  intros Hd Hs. symmetry. apply (Z.div_unique s d q (s - q * d)); lia.
Qed.

Lemma mod_between (s d : Z) : d <= s < 2 * d -> s mod d = s - d.
Proof.
  intros Hs. symmetry. apply (Z.mod_unique s d 1 (s - d)); lia.
Qed.

End Rounding.

Example model_agrees_with_binary64 : forallb agrees samples = true.
Proof. vm_compute. reflexivity. Qed.

(** ** The wind direction *)

Lemma f22_5_eq : f22_5 = Fin H22_5.
Proof. vm_compute. reflexivity. Qed.

Lemma H22_5_half : 2 * H22_5 = 45 * U.
Proof. vm_compute. reflexivity. Qed.

(** [x % 360] for a float [x >= 0] is the exact remainder. *)
Lemma float_rem_nonneg (r : Z) :
  0 <= r -> float_rem (Fin r) f360 = Fin (r mod (360 * U)).
Proof.
  intros Hr. pose proof U_pos as HU.
  unfold float_rem, fmod, f360.
  destruct (Z.eqb_spec (360 * U) 0) as [E|_]; [lia|].
  rewrite Z.rem_mod_nonneg by lia.
  pose proof (Z.mod_pos_bound r (360 * U) ltac:(lia)) as Hm.
  destruct (r mod (360 * U)) as [|p|p] eqn:Em; [reflexivity| |lia].
  unfold fltb.
  destruct (Z.ltb_spec (360 * U) 0); [lia|].
  destruct (Z.ltb_spec (Z.pos p) 0); [lia|]. reflexivity.
Qed.

(** The index computed from a shifted angle [s >= 0]. *)
Lemma index_of_shifted (s : Z) :
  0 <= s ->
  exists i,
    (i' ← int_of_float (float_rem (Fin s) f360); mret (i' / 45)) = Ok i
    /\ i = (s mod (360 * U)) / (45 * U)
    /\ 0 <= i < 8.
Proof.
  intros Hs. pose proof U_pos as HU.
  rewrite (float_rem_nonneg s Hs).
  pose proof (Z.mod_pos_bound s (360 * U) ltac:(lia)) as Hm.
  set (m := s mod (360 * U)) in *.
  exists (m / U / 45). split; [|split].
  - unfold int_of_float. cbn [mbind result_bind mret result_ret].
    rewrite Z.quot_div_nonneg by lia. reflexivity.
  - rewrite Z.div_div by lia. rewrite (Z.mul_comm U 45). reflexivity.
  - rewrite Z.div_div by lia. split.
    + apply Z.div_pos; lia.
    + apply Z.div_lt_upper_bound; lia.
Qed.

(** The inputs on which [wd + 22.5] is a finite float [>= 0]. *)
Lemma shifted_nonneg (wd : pyval) :
  degrees_in_0_360 wd ->
  exists s, add_float wd f22_5 = Ok (Fin s) /\ 0 <= s.
Proof.
  pose proof U_pos as HU. pose proof U_OVF as HO. pose proof H22_5_half as HH.
  rewrite f22_5_eq.
  destruct wd as [| |z|[a| |]| | |]; cbn [degrees_in_0_360]; try contradiction.
  - intros Hz. cbn [add_float as_float]. unfold float_of_int.
    destruct (round53_nonneg (z * U) 1) as (r & -> & Hr);
      rewrite ?Z.div_1_r; try nia.
    rewrite Z.div_1_r in Hr.
    cbn [mbind result_bind mret result_ret fadd].
    destruct (round53_nonneg (r + H22_5) 1) as (s & -> & Hs);
      rewrite ?Z.div_1_r; try nia.
    exists s. split; [reflexivity|lia].
  - intros Ha. cbn [add_float as_float mbind result_bind mret result_ret fadd].
    destruct (round53_nonneg (a + H22_5) 1) as (s & -> & Hs);
      rewrite ?Z.div_1_r; try nia.
    exists s. split; [reflexivity|lia].
Qed.

Lemma wind_label (i : Z) :
  0 <= i < 8 ->
  exists label,
    list_index wind_direction_map i = Ok label
    /\ nth_error wind_direction_map (Z.to_nat i) = Some label
    /\ In label wind_direction_map.
Proof.
  intros Hi.
  assert (i = 0 \/ i = 1 \/ i = 2 \/ i = 3 \/ i = 4 \/ i = 5 \/ i = 6 \/ i = 7)
    as Hc by lia.
  repeat (destruct Hc as [->|Hc]); try subst i;
    (eexists; split; [vm_compute; reflexivity|split; [reflexivity|simpl; tauto]]).
Qed.

Lemma U_double : U = 2 * 2 ^ 1073.
Proof. reflexivity. Qed.

(** On an integer number of degrees the shift by 22.5 is exact, so the
    eight sectors are exactly the 45-degree intervals that start at
    -22.5: in half degrees, [index = ((2 z + 45) mod 720) / 90]. *)
Lemma shifted_int (z : Z) :
  0 <= z < 360 ->
  add_float (VInt z) f22_5 = Ok (Fin ((2 * z + 45) * 2 ^ 1073)).
Proof.
  intros Hz. pose proof OVF_large as HO.
  assert (0 < 2 ^ 1073) as HP by (apply Z.pow_pos_nonneg; lia).
  assert (2 ^ 1074 = 2 * 2 ^ 1073) as H74 by reflexivity.
  assert (2 ^ 53 = 9007199254740992) as H53 by reflexivity.
  rewrite f22_5_eq. cbn [add_float as_float]. unfold float_of_int.
  change U with (2 ^ 1074).
  rewrite (round53_exact z 1074) by (rewrite ?H53; nia).
  cbn [mbind result_bind mret result_ret fadd]. unfold H22_5.
  replace (z * 2 ^ 1074 + 45 * 2 ^ 1073) with ((2 * z + 45) * 2 ^ 1073)
    by (rewrite H74; ring).
  rewrite (round53_exact (2 * z + 45) 1073) by (rewrite ?H53; nia).
  reflexivity.
Qed.

Lemma half_degrees (h : Z) :
  (h * 2 ^ 1073) mod (360 * U) / (45 * U) = (h mod 720) / 90.
Proof.
  assert (0 < 2 ^ 1073) as HP by (apply Z.pow_pos_nonneg; lia).
  rewrite U_double. set (P := 2 ^ 1073) in *.
  replace (360 * (2 * P)) with (720 * P) by ring.
  replace (45 * (2 * P)) with (90 * P) by ring.
  rewrite Z.mul_mod_distr_r by lia.
  apply Z.div_mul_cancel_r; lia.
Qed.

Lemma wind_index_int (z : Z) :
  0 <= z < 360 -> wind_index (VInt z) = Ok (((2 * z + 45) mod 720) / 90).
Proof.
  intros Hz. unfold wind_index. rewrite (shifted_int z Hz).
  cbn [mbind result_bind].
  assert (0 < 2 ^ 1073) as HP by (apply Z.pow_pos_nonneg; lia).
  destruct (index_of_shifted ((2 * z + 45) * 2 ^ 1073) ltac:(nia))
    as (i & Hi & Hspec & _).
  rewrite Hi. f_equal. rewrite Hspec. apply half_degrees.
Qed.

(** The specification's index on a whole number of degrees. *)
Lemma spec_wind_index_int (z : Z) :
  spec_wind_index (VInt z) = Some (((2 * z + 45) mod 720) / 90).
Proof.
  unfold spec_wind_index. cbn [degrees_units mbind option_bind]. f_equal.
  rewrite <- half_degrees. do 2 f_equal. unfold H22_5. rewrite U_double. ring.
Qed.

Lemma period_check_all (z : Z) :
  0 <= z < 360 ->
  ((2 * ((z + 45) mod 360) + 45) mod 720) / 90
  = (((2 * z + 45) mod 720) / 90 + 1) mod 8.
Proof.
  intros Hz.
  assert (forallb period_check (seq 0 360) = true) as Hall
    by (vm_compute; reflexivity).
  pose proof (proj1 (forallb_forall period_check (seq 0 360)) Hall
                (Z.to_nat z)) as Hc.
  unfold period_check in Hc. rewrite Z2Nat.id in Hc by lia.
  apply Z.eqb_eq, Hc, in_seq. lia.
Qed.

(** A float of 256 degrees or more, under 360: its sum with 22.5 is
    exact. *)
Lemma shifted_exact (a : Z) :
  256 * U <= a < 360 * U -> binary64 a ->
  round53 (a + H22_5) 1 = Fin (a + H22_5).
Proof.
  intros Ha Hb. pose proof OVF_large as HO.
  assert (256 * U = 2 ^ (53 + 1029)) as H256 by reflexivity.
  destruct (binary64_multiple a 1029 ltac:(lia) ltac:(lia) Hb) as [q Hq].
  change (1029 + 1) with 1030 in Hq.
  assert (U = 2 ^ 44 * 2 ^ 1030) as HU by reflexivity.
  assert (H22_5 = 45 * 2 ^ 43 * 2 ^ 1030) as HH by reflexivity.
  assert (0 < 2 ^ 1030) as HP by (apply Z.pow_pos_nonneg; lia).
  assert (2 ^ 44 = 17592186044416) as H44 by reflexivity.
  assert (2 ^ 43 = 8796093022208) as H43 by reflexivity.
  assert (2 ^ 53 = 9007199254740992) as H53 by reflexivity.
  replace (a + H22_5) with ((q + 45 * 2 ^ 43) * 2 ^ 1030) by (rewrite Hq, HH; ring).
  apply round53_exact; [lia| |].
  - rewrite HU in Ha. rewrite H43, H53. rewrite H44 in Ha. nia.
  - change (2 ^ 1074) with U in HO. rewrite HU in HO, Ha.
    rewrite H43. rewrite H44, H53 in *. nia.
Qed.

(** The index of the code next to the index of the specification, for
    a float in [0, 360): they are equal, unless the sum [a + 22.5]
    rounds up onto the start of the next sector, and then the code is
    one sector ahead. *)
Lemma wind_index_near_exact (a : Z) :
  0 <= a < 360 * U -> binary64 a ->
  exists i j s,
    add_float (VFloat (Fin a)) f22_5 = Ok (Fin s)
    /\ wind_index (VFloat (Fin a)) = Ok i
    /\ spec_wind_index (VFloat (Fin a)) = Some j
    /\ 0 <= j < 8
    /\ (i = j \/ (i = j + 1 /\ s = (j + 1) * (45 * U) /\ a + H22_5 < s)).
Proof.
  intros Ha Hb. pose proof U_pos as HU. pose proof H22_5_half as HH.
  assert (2 ^ 53 = 9007199254740992) as H53 by reflexivity.
  set (e := a + H22_5).
  assert (0 <= e <= 383 * U) as He by (subst e; lia).
  destruct (round53_le_multiple e 383 He ltac:(lia)) as (s & Hs & Hsb).
  destruct (index_of_shifted s (proj1 Hsb)) as (i & Hi & Hiv & Hir).
  assert (add_float (VFloat (Fin a)) f22_5 = Ok (Fin s)) as Hadd.
  { rewrite f22_5_eq. cbn [add_float as_float mbind result_bind mret result_ret fadd].
    fold e. rewrite Hs. reflexivity. }
  assert (wind_index (VFloat (Fin a)) = Ok i) as Hwi.
  { unfold wind_index. rewrite Hadd. cbn [mbind result_bind]. exact Hi. }
  exists i, ((e mod (360 * U)) / (45 * U)), s.
  split; [exact Hadd|]. split; [exact Hwi|]. split; [reflexivity|].
  pose proof (Z.mod_pos_bound e (360 * U) ltac:(lia)) as Hem.
  split.
  { split; [apply Z.div_pos; lia|apply Z.div_lt_upper_bound; lia]. }
  assert (e < 2 ^ 53 * U) as Hbig by (rewrite H53; lia).
  destruct (Z_lt_le_dec e (315 * U)) as [Hlow|Hhigh].
  - (* the sum is under 315: no wrap-around *)
    rewrite (Z.mod_small e) by lia.
    set (q := e / (45 * U)).
    assert (0 <= q <= 6) as Hq.
    { subst q. split; [apply Z.div_pos; lia|].
      assert (e / (45 * U) < 7) by (apply Z.div_lt_upper_bound; lia). lia. }
    pose proof (Z.mul_div_le e (45 * U) ltac:(lia)) as Hq1.
    pose proof (Z.mul_succ_div_gt e (45 * U) ltac:(lia)) as Hq2.
    fold q in Hq1, Hq2.
    assert (q * (45 * U) <= e < (q + 1) * (45 * U)) as Hqe by lia.
    clear Hq1 Hq2.
    assert ((45 * q) * U <= s) as Hlo.
    { apply (round53_ge_multiple e (45 * q) s); [lia|lia|exact Hs]. }
    assert (s <= (45 * (q + 1)) * U) as Hhi.
    { destruct (round53_le_multiple e (45 * (q + 1)) ltac:(lia) ltac:(lia))
        as (s' & Hs' & Hb'). rewrite Hs in Hs'. injection Hs' as <-. lia. }
    assert (s < 360 * U) as Hs360 by nia.
    rewrite (Z.mod_small s) in Hiv by lia.
    destruct (Z.eq_dec s ((q + 1) * (45 * U))) as [Heq|Hne].
    + right. split; [|split; [exact Heq|lia]].
      rewrite Hiv, Heq. apply Z.div_mul. lia.
    + left. rewrite Hiv. apply div_between; lia.
  - destruct (Z_lt_le_dec e (360 * U)) as [Hmid|Htop].
    + (* between 315 and 360 the sum is exact *)
      left. rewrite Hiv. do 2 f_equal.
      assert (round53 e 1 = Fin e) as Hex
        by (apply shifted_exact; [subst e; lia|exact Hb]).
      rewrite Hs in Hex. injection Hex as ->. reflexivity.
    + (* from 360 on: both indices are 0 *)
      left.
      assert (360 * U <= s) as Hlo
        by (apply (round53_ge_multiple e 360 s); [lia|lia|exact Hs]).
      rewrite Hiv, (mod_between s), (mod_between e) by lia.
      rewrite !Z.div_small by lia. reflexivity.
Qed.

Example wind_0 : wind_direction_of (VInt 0) = Ok "С"%string.
Proof. vm_compute. reflexivity. Qed.

Example wind_90 : wind_direction_of (VInt 90) = Ok "В"%string.
Proof. vm_compute. reflexivity. Qed.

Example wind_359 : wind_direction_of (VInt 359) = Ok "С"%string.
Proof. vm_compute. reflexivity. Qed.

Example wd_tie_literal : of_prim 22.499999999999996%float = wd_tie.
Proof. vm_compute. reflexivity. Qed.

(** The same sum on the kernel's floats: it is 45.0. *)
Example wd_tie_binary64 :
  of_prim (22.499999999999996 + 22.5)%float = Fin (45 * U).
Proof. vm_compute. reflexivity. Qed.

Lemma wd_tie_range : 0 <= H22_5 - 2 ^ 1026 < 360 * U.
Proof.
  split; [apply Z.leb_le|apply Z.ltb_lt]; vm_compute; reflexivity.
Qed.

(** C1, as stated: one unit in the last place under 22.5 degrees, which
    is in [0, 360), the formula of the specification gives index 0,
    North, and the code gives index 1, North-East: the sum
    [wd + 22.5] is a tie and rounds to 45.0. *)
Lemma wind_index_rounds_up :
  degrees_in_0_360 (VFloat wd_tie)
  /\ binary64 (H22_5 - 2 ^ 1026)
  /\ spec_wind_index (VFloat wd_tie) = Some 0
  /\ nth_error wind_direction_map 0 = Some "С"%string
  /\ add_float (VFloat wd_tie) f22_5 = Ok (Fin (45 * U))
  /\ wind_index (VFloat wd_tie) = Ok 1
  /\ wind_direction_of (VFloat wd_tie) = Ok "СВ"%string.
Proof.
  split; [exact wd_tie_range|]. compute_each.
Qed.

(** C1, amended.  For every wind direction in [0, 360) (a JSON integer
    or a binary64 real), [get_weather_data] computes without error the
    index [floor((s mod 360) / 45)] of the binary64 sum
    [s = wd + 22.5]; it lies in 0..7 and the label returned is the
    entry at that index of the fixed list of eight labels, North first
    and clockwise.  On whole degrees the sum is exact and the index is
    the one of the specification, [floor(((wd + 22.5) mod 360) / 45)]:
    the sectors are the 45-degree intervals offset by 22.5, and 45
    degrees further is the next label.  On any other float the index is
    the one of the specification, or the next one when the sum rounds
    up onto the start of the next sector.  0 and 359 map to North
    ([С]), 90 to East ([В]). *)
Theorem wind_direction_sectors :
  (forall wd, degrees_in_0_360 wd ->
     exists i label s,
       add_float wd f22_5 = Ok (Fin s)
       /\ wind_index wd = Ok i
       /\ i = (s mod (360 * U)) / (45 * U)
       /\ 0 <= i < 8
       /\ nth_error wind_direction_map (Z.to_nat i) = Some label
       /\ wind_direction_of wd = Ok label
       /\ In label wind_direction_map)
  /\ (forall z, 0 <= z < 360 ->
        spec_wind_index (VInt z) = Some (((2 * z + 45) mod 720) / 90)
        /\ wind_index (VInt z) = Ok (((2 * z + 45) mod 720) / 90)
        /\ wind_index (VInt ((z + 45) mod 360))
           = Ok ((((2 * z + 45) mod 720) / 90 + 1) mod 8))
  /\ (forall a, 0 <= a < 360 * U -> binary64 a ->
        exists i j s,
          add_float (VFloat (Fin a)) f22_5 = Ok (Fin s)
          /\ wind_index (VFloat (Fin a)) = Ok i
          /\ spec_wind_index (VFloat (Fin a)) = Some j
          /\ 0 <= j < 8
          /\ (i = j \/ (i = j + 1 /\ s = (j + 1) * (45 * U) /\ a + H22_5 < s)))
  /\ wind_direction_map = ["С"; "СВ"; "В"; "ЮВ"; "Ю"; "ЮЗ"; "З"; "СЗ"]%string
  /\ length wind_direction_map = 8%nat
  /\ wind_direction_of (VInt 0) = Ok "С"%string
  /\ wind_direction_of (VInt 90) = Ok "В"%string
  /\ wind_direction_of (VInt 359) = Ok "С"%string.
Proof.
  split; [|split; [|split; [exact wind_index_near_exact|compute_each]]].
  - intros wd Hwd.
    destruct (shifted_nonneg wd Hwd) as (s & Hs & Hs0).
    destruct (index_of_shifted s Hs0) as (i & Hi & Hspec & Hr).
    destruct (wind_label i Hr) as (label & Hl & Hn & Hin).
    exists i, label, s. unfold wind_direction_of, wind_index.
    rewrite Hs. cbn [mbind result_bind] in *.
    rewrite Hi. cbn [mbind result_bind].
    repeat split; try assumption; try reflexivity; lia.
  - intros z Hz. split; [apply spec_wind_index_int|].
    split; [apply wind_index_int; exact Hz|].
    rewrite wind_index_int by (apply Z.mod_pos_bound; lia).
    f_equal. apply period_check_all; exact Hz.
Qed.

(** ** Out of the range [0, 360) *)

Example wd_below_literal : of_prim (-22.500000000000004)%float = wd_below.
Proof. vm_compute. reflexivity. Qed.

(** The same steps on the kernel's floats: the sum is a tiny negative
    number, and adding 360 to it rounds to 360.0. *)
Example wd_below_binary64 :
  of_prim ((-22.500000000000004 + 22.5) + 360)%float = f360
  /\ PrimFloat.ltb (-22.500000000000004 + 22.5)%float 0%float = true.
Proof. split; vm_compute; reflexivity. Qed.

(** C10, at the failing input.  For the wind direction
    [-22.500000000000004] the sum [wd + 22.5] is [-2^-48], the
    remainder [% 360] of it is 360.0, the index is 8, and indexing the
    list of eight labels raises [IndexError]: no reading is returned. *)
Theorem wind_index_leaves_range :
  add_float (VFloat wd_below) f22_5 = Ok (Fin (- 2 ^ 1026))
  /\ float_rem (Fin (- 2 ^ 1026)) f360 = Fin (360 * U)
  /\ wind_index (VFloat wd_below) = Ok 8
  /\ wind_direction_of (VFloat wd_below)
     = Raise (Exception IndexError "list index out of range")
  /\ reading_of_json
       (body_of (VFloat wd_below) (VFloat (float_of_decimal 101325 2)) (VInt 0))
     = Raise (Exception IndexError "list index out of range").
Proof. compute_each. Qed.

(** From -22.5 upward the index stays in range, whatever the size of
    the angle (as long as the sum is finite). *)
Lemma wind_index_from_minus_22_5 (a : Z) :
  - H22_5 <= a -> 2 * (a + H22_5) + 1 < OVF ->
  exists i, wind_index (VFloat (Fin a)) = Ok i /\ 0 <= i < 8.
Proof.
  intros Ha Hb. unfold wind_index. rewrite f22_5_eq.
  cbn [add_float as_float mbind result_bind mret result_ret fadd].
  destruct (round53_nonneg (a + H22_5) 1) as (s & -> & Hs);
    rewrite ?Z.div_1_r; try lia.
  destruct (index_of_shifted s (proj1 Hs)) as (i & Hi & _ & Hr).
  exists i. split; [exact Hi|exact Hr].
Qed.

(** ** What [reading_of_json] returns *)

Ltac bind_step H x E :=
  match type of H with
  | mbind _ ?m = _ =>
    destruct m as [x|] eqn:E; cbn [mbind result_bind] in H; [|discriminate H]
  end.

Lemma mul_float_as_float (v : pyval) (c p : pyfloat) :
  mul_float v c = Ok p -> exists x, as_float v = Ok x /\ p = fmul x c.
Proof.
  destruct v; cbn [mul_float]; try discriminate;
    (destruct (as_float _) as [x|] eqn:Ex;
     cbn [mbind result_bind mret result_ret]; [|discriminate]);
    intros [= <-]; exists x; split; reflexivity.
Qed.

Lemma reading_of_json_inv (data : pyval) (r : reading) :
  reading_of_json data = Ok r ->
  exists current wd p0 p a0 wet,
    getitem data "current_weather" = Ok current
    /\ getitem current "winddirection" = Ok wd
    /\ wind_direction_of wd = Ok (wind_direction r)
    /\ getitem current "temperature" = Ok (temperature r)
    /\ getitem current "windspeed" = Ok (wind_speed r)
    /\ hourly_first "pressure_msl" data = Ok p0
    /\ mul_float p0 f0_75006 = Ok p
    /\ pressure r = VFloat p
    /\ hourly_first "precipitation" data = Ok a0
    /\ gt_zero a0 = Ok wet
    /\ precipitation_type r = (if wet then "rain" else "none")%string
    /\ precipitation_amount r = a0.
Proof.
  intros H. unfold reading_of_json in H.
  bind_step H current E1. bind_step H hourly E2. bind_step H wd E3.
  bind_step H dir E4. bind_step H t E5. bind_step H ws E6.
  bind_step H pm E7. bind_step H p0 E8. bind_step H p E9.
  bind_step H pr E10. bind_step H a0 E11. bind_step H wet E12.
  cbn [mbind result_bind mret result_ret] in H.
  injection H as <-. cbn [wind_direction temperature wind_speed pressure
                          precipitation_type precipitation_amount].
  exists current, wd, p0, p, a0, wet. unfold hourly_first.
  rewrite E2. cbn [mbind result_bind]. rewrite E7, E10.
  cbn [mbind result_bind]. repeat split; assumption || reflexivity.
Qed.

(** ** Precipitation *)

Lemma gt_zero_spec (v : pyval) (b : bool) :
  gt_zero v = Ok b -> (b = true <-> positive_amount v).
Proof.
  destruct v as [| |z|[u|neg|]| | |]; cbn [gt_zero positive_amount fltb];
    try discriminate; intros [= <-].
  - reflexivity.
  - apply Z.ltb_lt.
  - apply Z.ltb_lt.
  - destruct neg; cbn; split; congruence.
  - split; [discriminate|contradiction].
Qed.

Lemma rain_iff_wet (r : reading) (wet : bool) :
  precipitation_type r = (if wet then "rain" else "none")%string ->
  (wet = true <-> positive_amount (precipitation_amount r)) ->
  rain_iff_positive r.
Proof.
  intros Ht Hw. unfold rain_iff_positive. rewrite Ht.
  destruct wet; (split; split); intros Hx; try reflexivity; try discriminate Hx.
  - apply Hw. reflexivity.
  - exfalso. apply Hx, Hw. reflexivity.
  - apply Hw in Hx. discriminate Hx.
  - intros Hp. apply Hw in Hp. discriminate Hp.
Qed.

Lemma reading_rain_iff_positive (data : pyval) (r : reading) :
  reading_of_json data = Ok r -> rain_iff_positive r.
Proof.
  intros H.
  destruct (reading_of_json_inv data r H)
    as (current & wd & p0 & p & a0 & wet
        & _ & _ & _ & _ & _ & _ & _ & _ & _ & Hgt & Ht & Ha).
  apply (rain_iff_wet r wet Ht). rewrite Ha. exact (gt_zero_spec a0 wet Hgt).
Qed.

(** ** What the table keeps of a reading *)

Lemma float_column_cases (v v' : pyval) :
  float_column v = Some v' ->
  (v = VNone /\ v' = VNone)
  \/ exists f, float_of_value v = Some f
               /\ v' = match f with NaN => VNone | _ => VFloat f end.
Proof.
  destruct v; cbn [float_column]; try (intros [= <-]; left; split; reflexivity);
    (destruct (float_of_value _) as [x|] eqn:Ex;
     cbn [mbind option_bind]; [|discriminate]);
    intros [= <-]; right; exists x; split; reflexivity.
Qed.

(** A number keeps its sign in a [Float] column: it is above 0 there
    exactly when it was. *)
Lemma float_column_positive (v v' : pyval) (wet : bool) :
  gt_zero v = Ok wet -> float_column v = Some v' ->
  (wet = true <-> positive_amount v').
Proof.
  pose proof U_pos as HU.
  intros Hgt Hcol.
  destruct v as [|b|z|[u|neg|]| | |]; cbn [gt_zero] in Hgt; try discriminate Hgt;
    injection Hgt as <-;
    cbn [float_column float_of_value mbind option_bind] in Hcol.
  - injection Hcol as <-. cbn [positive_amount].
    destruct b; split; intros Hx; first [reflexivity|lia|discriminate Hx].
  - unfold float_of_int in Hcol.
    destruct (round53 (z * U) 1) as [r| |] eqn:Er;
      cbn [mbind option_bind] in Hcol; try discriminate Hcol.
    injection Hcol as <-. cbn [positive_amount].
    rewrite Z.ltb_lt. split; intros Hx.
    + apply (round53_pos (z * U) r); [nia|exact Er].
    + destruct (round53_sign (z * U)) as [(r' & Hr' & _ & Hneg)|(b & Hb)];
        [|rewrite Hb in Er; discriminate Er].
      rewrite Er in Hr'. injection Hr' as <-.
      destruct (Z_lt_le_dec 0 z) as [Hz|Hz]; [exact Hz|].
      specialize (Hneg ltac:(nia)). lia.
  - injection Hcol as <-. cbn [positive_amount fltb]. apply Z.ltb_lt.
  - injection Hcol as <-. cbn [positive_amount fltb].
    destruct neg; cbn; split; congruence.
  - injection Hcol as <-. cbn [positive_amount fltb].
    split; [discriminate|contradiction].
Qed.

Lemma float_column_real_or_null (v v' : pyval) :
  float_column v = Some v' -> real_or_null v'.
Proof.
  intros H. destruct (float_column_cases v v' H) as [[_ ->]|(f & _ & ->)];
    [exact I|]. destruct f; exact I.
Qed.

Lemma bind_row_inv (d d' : reading) :
  bind_row d = Some d' ->
  float_column (temperature d) = Some (temperature d')
  /\ float_column (wind_speed d) = Some (wind_speed d')
  /\ float_column (pressure d) = Some (pressure d')
  /\ float_column (precipitation_amount d) = Some (precipitation_amount d')
  /\ wind_direction d' = wind_direction d
  /\ precipitation_type d' = precipitation_type d.
Proof.
  unfold bind_row.
  destruct (float_column (temperature d)) as [t|]; [|discriminate].
  destruct (float_column (wind_speed d)) as [ws|]; [|discriminate].
  destruct (float_column (pressure d)) as [p|]; [|discriminate].
  destruct (float_column (precipitation_amount d)) as [a|]; [|discriminate].
  cbn [mbind option_bind]. intros [= <-]. repeat split.
Qed.

(** The reading of a fetch, as the table keeps it, is still one whose
    precipitation type goes with its amount. *)
Lemma stored_rain_iff_positive (body : pyval) (d d' : reading) :
  reading_of_json body = Ok d -> bind_row d = Some d' -> rain_iff_positive d'.
Proof.
  intros Hr Hb.
  destruct (reading_of_json_inv body d Hr)
    as (current & wd & p0 & p & a0 & wet
        & _ & _ & _ & _ & _ & _ & _ & _ & _ & Hgt & Ht & Ha).
  destruct (bind_row_inv d d' Hb) as (_ & _ & _ & Hcol & _ & Hty).
  apply (rain_iff_wet d' wet); [rewrite Hty; exact Ht|].
  rewrite Ha in Hcol. exact (float_column_positive a0 _ wet Hgt Hcol).
Qed.

(** ** The store and the poll loop *)

Lemma save_to_db_cases (d : reading) (w : world) :
  (exists d' i,
     bind_row d = Some d'
     /\ next_id (db w) (random_rowid w (db w)) = Some i
     /\ save_to_db d w
        = Ok (with_db (db w ++ [ {| id := i; timestamp := utcnow w; data := d' |} ]) w))
  \/ ((bind_row d = None \/ next_id (db w) (random_rowid w (db w)) = None)
      /\ save_to_db d w
         = Raise (Exception StatementError (statement_error w (utcnow w) d))).
Proof.
  unfold save_to_db.
  destruct (bind_row d) as [d'|]; [|right; split; [left|]; reflexivity].
  destruct (next_id (db w) (random_rowid w (db w))) as [i|];
    [|right; split; [right|]; reflexivity].
  left. exists d', i. repeat split.
Qed.

(** What one pass of the [try] block leaves: an error line and the
    table as it was, or one row more and the confirmation line. *)
Lemma store_and_report_cases (r : result reading) (w : world) :
  (exists e,
     (r = Raise e \/ exists d, r = Ok d /\ save_to_db d w = Raise e)
     /\ store_and_report r w = print (error_message e) w)
  \/ (exists d d' i,
        r = Ok d /\ bind_row d = Some d'
        /\ next_id (db w) (random_rowid w (db w)) = Some i
        /\ store_and_report r w
           = print (saved_message (now w))
               (with_db (db w ++ [ {| id := i; timestamp := utcnow w; data := d' |} ]) w)).
Proof.
  unfold store_and_report. destruct r as [d|e]; cbn [mbind result_bind].
  - destruct (save_to_db_cases d w) as [(d' & i & Hb & Hi & ->)|[_ Hs]].
    + right. exists d, d', i. repeat split; assumption.
    + left. eexists. split; [right; exists d; split; [reflexivity|exact Hs]|].
      rewrite Hs. reflexivity.
  - left. exists e. split; [left; reflexivity|reflexivity].
Qed.

Lemma get_weather_data_cases (n : network) :
  snd (get_weather_data n) = send request_url n
  /\ fst (get_weather_data n)
     = outcome_reading (answers n (length (requests n))).
Proof. split; reflexivity. Qed.

Lemma get_weather_data_reading (n : network) (d : reading) :
  fst (get_weather_data n) = Ok d ->
  exists status body,
    answers n (length (requests n)) = Response status (Ok body)
    /\ reading_of_json body = Ok d.
Proof.
  rewrite (proj2 (get_weather_data_cases n)).
  destruct (answers n (length (requests n))) as [e|status [body|e]];
    cbn [outcome_reading mbind result_bind]; try discriminate.
  intros H. exists status, body. split; [reflexivity|exact H].
Qed.

Lemma weather_loop_iter_eq (w : world) :
  weather_loop_iter w
  = store_and_report (fst (get_weather_data (net w)))
      (with_net (send request_url (net w)) w).
Proof. reflexivity. Qed.

(** One turn of the poll loop adds at most one row: the reading just
    fetched, as the table keeps it, under the next id. *)
Lemma weather_loop_iter_db (w : world) :
  db (weather_loop_iter w) = db w
  \/ (exists d d' i,
        fst (get_weather_data (net w)) = Ok d
        /\ bind_row d = Some d'
        /\ next_id (db w) (random_rowid w (db w)) = Some i
        /\ db (weather_loop_iter w)
           = db w ++ [ {| id := i; timestamp := utcnow w; data := d' |} ]).
Proof.
  rewrite weather_loop_iter_eq.
  destruct (store_and_report_cases (fst (get_weather_data (net w)))
              (with_net (send request_url (net w)) w))
    as [(e & _ & ->)|(d & d' & i & Hr & Hb & Hi & ->)].
  - left. reflexivity.
  - right. exists d, d', i. repeat split; assumption.
Qed.

(** C3. In every reading that [get_weather_data] builds, and so in
    every row that the poll loop stores, [precipitation_type] is
    ["rain"] exactly when [precipitation_amount] (the first hourly
    precipitation value) is greater than 0, and ["none"] exactly when
    it is not; amount 0 gives ["none"], amount 2.5 gives ["rain"]. *)
Theorem precipitation_type_iff_positive :
  (forall data r,
     reading_of_json data = Ok r ->
     rain_iff_positive r
     /\ hourly_first "precipitation" data = Ok (precipitation_amount r))
  /\ (forall w x,
        In x (db (weather_loop_iter w)) ->
        In x (db w) \/ rain_iff_positive (data x))
  /\ (exists r,
        reading_of_json (body_of (VInt 90) (VInt 1013) (VInt 0)) = Ok r
        /\ precipitation_amount r = VInt 0
        /\ precipitation_type r = "none"%string)
  /\ (exists r,
        reading_of_json
          (body_of (VInt 90) (VInt 1013) (VFloat (float_of_decimal 25 1))) = Ok r
        /\ precipitation_amount r = VFloat (float_of_decimal 25 1)
        /\ precipitation_type r = "rain"%string).
Proof.
  split; [|split; [|split]].
  - intros data r H. split; [exact (reading_rain_iff_positive data r H)|].
    destruct (reading_of_json_inv data r H)
      as (current & wd & p0 & p & a0 & wet
          & _ & _ & _ & _ & _ & _ & _ & _ & Ha & _ & _ & ->).
    exact Ha.
  - intros w x Hin.
    destruct (weather_loop_iter_db w) as [Hdb|(d & d' & i & Hd & Hb & _ & Hdb)];
      rewrite Hdb in Hin; [left; exact Hin|].
    apply in_app_or in Hin as [Hin|[<-|[]]]; [left; exact Hin|right].
    destruct (get_weather_data_reading (net w) d Hd) as (st & body & _ & Hr).
    exact (stored_rain_iff_positive body d d' Hr Hb).
  - eexists. split; [vm_compute; reflexivity|]. split; reflexivity.
  - eexists. split; [vm_compute; reflexivity|]. split; reflexivity.
Qed.

(** ** Pressure *)

Example f0_75006_binary64 : f0_75006 = of_prim 0.75006%float.
Proof. vm_compute. reflexivity. Qed.

Example pressure_1013_25_binary64 :
  of_prim (1013.25 * 0.75006)%float = float_of_decimal 759998295 6.
Proof. vm_compute. reflexivity. Qed.

(** C9, as the specification words its example: the pressure stored for
    1013.25 hPa is below 760 mmHg, so it is not 760.24...  *)
Lemma pressure_1013_25_below_760 :
  exists r u,
    reading_of_json body_1013_25 = Ok r
    /\ pressure r = VFloat (Fin u)
    /\ u < 760 * U.
Proof.
  eexists. eexists. split; [vm_compute; reflexivity|].
  split; [reflexivity|]. apply Z.ltb_lt. vm_compute. reflexivity.
Qed.

(** C9, amended.  The pressure of a reading is the binary64 product of
    the first hourly pressure value of the response (an int is
    converted to a float first) with the binary64 constant 0.75006: the
    exact product, rounded once.  For 1013.25 hPa it is the float
    759.998295. *)
Theorem pressure_is_product :
  (forall data r,
     reading_of_json data = Ok r ->
     exists p0 x,
       hourly_first "pressure_msl" data = Ok p0
       /\ as_float p0 = Ok x
       /\ pressure r = VFloat (fmul x f0_75006))
  /\ (exists c,
        f0_75006 = Fin c
        /\ f0_75006 = round53 (75006 * U) 100000
        /\ forall a, fmul (Fin a) f0_75006 = round53 (a * c) U)
  /\ (exists r,
        reading_of_json body_1013_25 = Ok r
        /\ pressure r = VFloat (float_of_decimal 759998295 6)
        /\ float_repr (float_of_decimal 759998295 6) = "759.998295"%string).
Proof.
  split; [|split].
  - intros data r H.
    destruct (reading_of_json_inv data r H)
      as (current & wd & p0 & p & a0 & wet
          & _ & _ & _ & _ & _ & Hp & Hm & Hpr & _).
    destruct (mul_float_as_float p0 f0_75006 p Hm) as (x & Hx & ->).
    exists p0, x. auto.
  - destruct f0_75006 as [c| |] eqn:Ec; try (vm_compute in Ec; discriminate Ec).
    exists c. split; [reflexivity|]. split; [rewrite <- Ec; reflexivity|].
    intros a. reflexivity.
  - eexists. split; [vm_compute; reflexivity|]. split; vm_compute; reflexivity.
Qed.

(** ** The store *)

#[local] Instance newer_total : Total newer.
Proof. intros a b. unfold newer. lia. Qed.

#[local] Instance newer_trans : Transitive newer.
Proof. intros a b c. unfold newer. lia. Qed.

Lemma mostRecent_split (n : nat) (t : list row) :
  mostRecent n t ++ drop n (merge_sort newer t) ≡ₚ t.
Proof.
  unfold mostRecent. rewrite take_drop. apply merge_sort_Permutation.
Qed.

Lemma mostRecent_length (n : nat) (t : list row) :
  length (mostRecent n t) = Nat.min n (length t).
Proof.
  unfold mostRecent. rewrite length_take.
  rewrite (Permutation_length (merge_sort_Permutation newer t)). reflexivity.
Qed.

Lemma mostRecent_sorted (n : nat) (t : list row) :
  StronglySorted newer (mostRecent n t)
  /\ forall a b, a ∈ mostRecent n t -> b ∈ drop n (merge_sort newer t) -> newer a b.
Proof.
  pose proof (StronglySorted_merge_sort newer t) as Hs.
  rewrite <- (take_drop n (merge_sort newer t)) in Hs.
  apply StronglySorted_app in Hs as (Hc & Hl & _).
  split; [exact Hl|exact Hc].
Qed.

Lemma mostRecent_all (n : nat) (t : list row) :
  (length t <= n)%nat -> mostRecent n t ≡ₚ t.
Proof.
  intros Hn. unfold mostRecent. rewrite take_ge.
  - apply merge_sort_Permutation.
  - rewrite (Permutation_length (merge_sort_Permutation newer t)). exact Hn.
Qed.

(** ** The exported table *)

Lemma keys_of_row (d : row) : map fst (record_of_row d) = export_labels.
Proof. reflexivity. Qed.

Lemma columns_stable (rs : list row) :
  fold_left (fun seen r => add_keys seen (map fst r))
            (map record_of_row rs) export_labels
  = export_labels.
Proof.
  induction rs as [|d rs IH]; [reflexivity|].
  cbn [map fold_left]. rewrite keys_of_row.
  replace (add_keys export_labels export_labels) with export_labels
    by (vm_compute; reflexivity).
  exact IH.
Qed.

(** The columns of the table are the keys of its records: the seven
    labels as soon as there is a row, none when there is no row. *)
Lemma columns_of_rows (rs : list row) :
  columns (DataFrame_of_records (map record_of_row rs))
  = match rs with [] => [] | _ :: _ => export_labels end.
Proof.
  destruct rs as [|d rs]; [reflexivity|].
  cbn [columns DataFrame_of_records map fold_left]. rewrite keys_of_row.
  replace (add_keys [] export_labels) with export_labels
    by (vm_compute; reflexivity).
  apply columns_stable.
Qed.

Lemma cells_of_row (d : row) :
  map (fun c => field c (record_of_row d)) export_labels
  = map Some (map snd (record_of_row d)).
Proof. reflexivity. Qed.

Lemma rows_of_rows (rs : list row) :
  rows (DataFrame_of_records (map record_of_row rs))
  = map (fun x => map Some (map snd (record_of_row x))) rs.
Proof.
  pose proof (columns_of_rows rs) as Hc.
  destruct rs as [|d rs]; [reflexivity|].
  unfold DataFrame_of_records in *. cbn [columns rows] in *. rewrite Hc.
  rewrite map_map. apply map_ext. intros x. apply cells_of_row.
Qed.

(** C4. [mostRecent n], the query of the exporter with its limit as a
    parameter, returns [min n (rows in the store)] rows, newest first;
    they are rows of the store, and every row left out is no newer than
    any row returned.  With at most [n] rows in the store it returns
    all of them; on an empty store it returns nothing; on three rows
    and [n = 10] it returns the three, newest first.  The exporter
    writes the rows of [mostRecent 10]. *)
Theorem mostRecent_newest_first :
  (forall n t,
     length (mostRecent n t) = Nat.min n (length t)
     /\ StronglySorted newer (mostRecent n t)
     /\ exists rest,
          mostRecent n t ++ rest ≡ₚ t
          /\ forall a b, a ∈ mostRecent n t -> b ∈ rest ->
                         timestamp b <= timestamp a)
  /\ (forall n t, (length t <= n)%nat -> mostRecent n t ≡ₚ t)
  /\ (forall n, mostRecent n [] = [])
  /\ (forall a b c,
        mostRecent 10 [a; b; c] ≡ₚ [a; b; c]
        /\ length (mostRecent 10 [a; b; c]) = 3%nat
        /\ StronglySorted newer (mostRecent 10 [a; b; c]))
  /\ (forall d, map id (mostRecent 10 (three_rows d)) = [2; 3; 1])
  /\ (forall w,
        exists name s,
          files (snd (export_to_excel w)) = files w ++ [(name, s)]
          /\ body s = map (fun x => map Some (map snd (record_of_row x)))
                          (mostRecent 10 (db w))).
Proof.
  split; [|split; [|split; [|split; [|split]]]].
  - intros n t. split; [apply mostRecent_length|].
    destruct (mostRecent_sorted n t) as [Hs Hc]. split; [exact Hs|].
    exists (drop n (merge_sort newer t)). split; [apply mostRecent_split|].
    intros a b Ha Hb. exact (Hc a b Ha Hb).
  - apply mostRecent_all.
  - intros n. unfold mostRecent. cbn. apply take_nil.
  - intros a b c. split; [apply mostRecent_all; cbn; lia|].
    split; [rewrite mostRecent_length; reflexivity|].
    apply mostRecent_sorted.
  - intros d. vm_compute. reflexivity.
  - intros w. eexists. eexists. split; [reflexivity|].
    cbn [body to_excel]. apply rows_of_rows.
Qed.

(** ** The exporter *)

Lemma export_to_excel_effect (w : world) :
  export_to_excel w
  = (VNone,
     print (export_message (export_filename (now w)))
       (write_file (export_filename (now w))
          {| header := match mostRecent 10 (db w) with
                       | [] => []
                       | _ :: _ => export_labels
                       end;
             body := map (fun x => map Some (map snd (record_of_row x)))
                         (mostRecent 10 (db w)) |}
          w)).
Proof.
  unfold export_to_excel, to_excel.
  rewrite columns_of_rows, rows_of_rows. reflexivity.
Qed.

(** With a row in the store the file starts with the seven labels. *)
Lemma export_header_with_rows (w : world) :
  db w <> [] ->
  exists s,
    files (snd (export_to_excel w)) = files w ++ [(export_filename (now w), s)]
    /\ header s = export_labels.
Proof.
  intros Hne. rewrite export_to_excel_effect. cbn [snd files print write_file].
  eexists. split; [reflexivity|]. cbn [header].
  destruct (mostRecent 10 (db w)) as [|x l] eqn:E; [|reflexivity].
  exfalso. apply Hne. apply (f_equal length) in E.
  rewrite mostRecent_length in E. destruct (db w); [reflexivity|cbn in E; lia].
Qed.

(** C2, at the failing input.  On an empty store the exporter writes
    one file, and that file has no cell at all: no data row and no
    header either, since the columns of the table are taken from its
    records.  The seven labels are written only when there is a row. *)
Theorem export_empty_store_writes_no_header :
  forall w,
    db w = [] ->
    files (snd (export_to_excel w))
    = files w ++ [(export_filename (now w), {| header := []; body := [] |})]
    /\ header {| header := []; body := [] |} <> export_labels
    /\ length export_labels = 7%nat.
Proof.
  intros w Hdb. rewrite export_to_excel_effect, Hdb.
  split; [reflexivity|]. split; [discriminate|reflexivity].
Qed.

Lemma export_empty_store_witness :
  db world0 = []
  /\ files (snd (export_to_excel world0))
     = [("weather_data_20240307_090501.xlsx"%string,
         {| header := []; body := [] |})].
Proof.
  split; [reflexivity|].
  exact (proj1 (export_empty_store_writes_no_header world0 eq_refl)).
Defined.

(** C6, as stated: the exporter does not return the file name. *)
Lemma export_returns_none :
  fst (export_to_excel world0) <> VStr (export_filename (now world0)).
Proof. rewrite export_to_excel_effect. discriminate. Qed.

(** C6, amended.  [export_to_excel] writes one file, named
    [weather_data_<YYYYMMDD_HHMMSS>.xlsx] from the local time of the
    call, prints the confirmation line with that name itself, and
    returns [None]; on ["export"] the command loop calls it and prints
    nothing of its own. *)
Theorem export_prints_its_filename :
  forall w,
    fst (export_to_excel w) = VNone
    /\ (exists s,
          files (snd (export_to_excel w))
          = files w ++ [(export_filename (now w), s)])
    /\ stdout (snd (export_to_excel w))
       = stdout w ++ [export_message (export_filename (now w))]
    /\ db (snd (export_to_excel w)) = db w
    /\ export_filename (now w)
       = ("weather_data_"
          +:+ (pad 4 (year (now w)) +:+ pad 2 (month (now w))
               +:+ pad 2 (day (now w)) +:+ "_"
               +:+ pad 2 (hour (now w)) +:+ pad 2 (minute (now w))
               +:+ pad 2 (second (now w)))
          +:+ ".xlsx")%string
    /\ handle_command "export" w = (snd (export_to_excel w), Running)
    /\ export_filename (now world0) = "weather_data_20240307_090501.xlsx"%string
    /\ stdout (fst (handle_command "export" world0))
       = ["Данные экспортированы в файл: weather_data_20240307_090501.xlsx"%string].
Proof.
  intros w. rewrite export_to_excel_effect. cbn [fst snd].
  split; [reflexivity|]. split; [eexists; reflexivity|].
  split; [reflexivity|]. split; [reflexivity|]. split; [reflexivity|].
  split; [|split; vm_compute; reflexivity].
  unfold handle_command. cbn [lower lower_ascii]. rewrite export_to_excel_effect.
  reflexivity.
Qed.

(** ** The command loop *)

Lemma handle_command_cases (command : string) (w : world) :
  (lower command = "export"%string
   /\ handle_command command w = (snd (export_to_excel w), Running))
  \/ (lower command = "exit"%string
      /\ handle_command command w = (print farewell w, Exited 0))
  \/ (lower command <> "export"%string /\ lower command <> "exit"%string
      /\ handle_command command w = (print unknown_command w, Running)).
Proof.
  unfold handle_command.
  destruct (String.eqb_spec (lower command) "export") as [E1|N1];
    [left; split; [exact E1|reflexivity]|].
  destruct (String.eqb_spec (lower command) "exit") as [E2|N2];
    [right; left; split; [exact E2|reflexivity]|].
  right; right. repeat split; assumption.
Qed.

(** C7, as stated: a line with a space before the word is trimmed to
    ["export"] by the specification's reading, and is an unknown
    command for the code, which writes no file. *)
Lemma untrimmed_export_is_unknown :
  spec_command " export" = "export"%string
  /\ handle_command " export" world0 = (print unknown_command world0, Running)
  /\ files (fst (handle_command " export" world0)) = []
  /\ length (files (fst (handle_command "export" world0))) = 1%nat.
Proof. repeat split. Qed.

(** C7, amended.  The command loop matches the line as it was read,
    lowered, against ["export"] and ["exit"]; it does not trim it.  A
    line that lowers to ["export"] runs the exporter, one that lowers
    to ["exit"] prints the farewell and ends the process with status
    0, any other line prints the unknown-command message and the loop
    goes on.  ["EXPORT"] does what ["export"] does; ["quit"] is
    unknown and does not end the process. *)
Theorem command_dispatch :
  forall command w,
    (lower command = "export"%string ->
     handle_command command w = (snd (export_to_excel w), Running))
    /\ (lower command = "exit"%string ->
        handle_command command w = (print farewell w, Exited 0))
    /\ (lower command <> "export"%string -> lower command <> "exit"%string ->
        handle_command command w = (print unknown_command w, Running))
    /\ handle_command "EXPORT" w = handle_command "export" w
    /\ handle_command "ExIt" w = (print farewell w, Exited 0)
    /\ handle_command "quit" w = (print unknown_command w, Running)
    /\ handle_command "export " w = (print unknown_command w, Running).
Proof.
  intros command w.
  destruct (handle_command_cases command w)
    as [(E & H)|[(E & H)|(N1 & N2 & H)]]; rewrite H.
  - repeat split; try reflexivity; intros; try reflexivity;
      try (rewrite E in *; discriminate); contradiction.
  - repeat split; try reflexivity; intros; try reflexivity;
      try (rewrite E in *; discriminate); contradiction.
  - repeat split; try reflexivity; intros; try reflexivity; contradiction.
Qed.

(** ** The fetcher and its request *)

Lemma reading_needs_fields (body : pyval) (r : reading) :
  reading_of_json body = Ok r ->
  forall path, In path expected_fields -> is_ok (lookup_path path body) = true.
Proof.
  intros H. unfold reading_of_json in H.
  bind_step H current E1. bind_step H hourly E2. bind_step H wd E3.
  bind_step H dir E4. bind_step H t E5. bind_step H ws E6.
  bind_step H pm E7. bind_step H p0 E8. bind_step H p E9.
  bind_step H pr E10.
  intros path Hin. unfold expected_fields in Hin. cbn [In] in Hin.
  repeat (destruct Hin as [<-|Hin]); try contradiction;
    unfold lookup_path; cbn [fold_left mbind result_bind];
    rewrite ?E1, ?E2; cbn [mbind result_bind];
    rewrite ?E3, ?E5, ?E6, ?E7, ?E10; reflexivity.
Qed.

(** An iteration of the poll loop whose fetch raises: nothing is
    stored, and the text of the exception is printed after the words of
    the [except] clause. *)
Lemma weather_loop_iter_error (w : world) (e : exception) :
  fst (get_weather_data (net w)) = Raise e ->
  weather_loop_iter w
  = print (error_message e) (with_net (send request_url (net w)) w).
Proof.
  intros H. rewrite weather_loop_iter_eq, H. reflexivity.
Qed.

(** C8, as stated: a response with status 500 whose body has every
    field is turned into a reading, not into an error. *)
Lemma status_500_gives_a_reading :
  is_ok (fst (get_weather_data (always (Response 500 (Ok body_1013_25)))))
  = true.
Proof. vm_compute. reflexivity. Qed.

(** C8, amended.  [get_weather_data] sends exactly one request,
    whatever comes back.  A request that fails raises the exception of
    [session.get]; a response that [response.json()] refuses raises the
    exception of [response.json()], be it for the content type or for
    the text; a JSON body in which an expected field is missing, or
    whose hourly series is empty, raises an error instead of giving a
    reading: a [KeyError] that names the key when the object is there
    and the key is not.  The status of the response is not looked at:
    the body alone decides.  In the poll loop an error of the fetch
    stores nothing and prints one line, the words of the [except]
    clause followed by the text of the exception. *)
Theorem fetch_errors_surface_once :
  (forall n,
     requests (snd (get_weather_data n)) = requests n ++ [request_url]
     /\ answers (snd (get_weather_data n)) = answers n)
  /\ (forall n e,
        answers n (length (requests n)) = ConnectionFailed e ->
        fst (get_weather_data n) = Raise e)
  /\ (forall n status e,
        answers n (length (requests n)) = Response status (Raise e) ->
        fst (get_weather_data n) = Raise e)
  /\ (forall n status body,
        answers n (length (requests n)) = Response status (Ok body) ->
        fst (get_weather_data n) = reading_of_json body)
  /\ (forall body path,
        In path expected_fields ->
        is_ok (lookup_path path body) = false ->
        exists e, reading_of_json body = Raise e)
  /\ (forall d,
        assoc "current_weather" d = None ->
        reading_of_json (VDict d)
        = Raise (Exception KeyError "'current_weather'"))
  /\ (forall body,
        (hourly_first "pressure_msl" body
         = Raise (Exception IndexError "list index out of range")
         \/ hourly_first "precipitation" body
            = Raise (Exception IndexError "list index out of range")) ->
        exists e, reading_of_json body = Raise e)
  /\ (forall w e,
        fst (get_weather_data (net w)) = Raise e ->
        db (weather_loop_iter w) = db w
        /\ stdout (weather_loop_iter w)
           = stdout w ++ [("Произошла ошибка: " +:+ message e)%string]
        /\ requests (net (weather_loop_iter w))
           = requests (net w) ++ [request_url])
  /\ stdout (weather_loop_iter (answering (Response 200 (Ok (VDict []))) world0))
     = ["Произошла ошибка: 'current_weather'"%string]
  /\ stdout (weather_loop_iter
               (answering
                  (Response 200
                     (Raise (Exception JSONDecodeError
                               "Expecting value: line 1 column 1 (char 0)")))
                  world0))
     = ["Произошла ошибка: Expecting value: line 1 column 1 (char 0)"%string].
Proof.
  split; [|split; [|split; [|split; [|split; [|split; [|split; [|split]]]]]]].
  - intros n. rewrite (proj1 (get_weather_data_cases n)). split; reflexivity.
  - intros n e H. rewrite (proj2 (get_weather_data_cases n)), H. reflexivity.
  - intros n st e H. rewrite (proj2 (get_weather_data_cases n)), H. reflexivity.
  - intros n st body H. rewrite (proj2 (get_weather_data_cases n)), H. reflexivity.
  - intros body path Hin Hno.
    destruct (reading_of_json body) as [r|e] eqn:E; [|exists e; reflexivity].
    rewrite (reading_needs_fields body r E path Hin) in Hno. discriminate Hno.
  - intros d H. unfold reading_of_json. cbn [getitem]. rewrite H. reflexivity.
  - intros body Hno.
    destruct (reading_of_json body) as [r|e] eqn:E; [|exists e; reflexivity].
    destruct (reading_of_json_inv body r E)
      as (current & wd & p0 & p & a0 & wet
          & _ & _ & _ & _ & _ & Hp & _ & _ & Ha & _).
    destruct Hno as [Hno|Hno]; congruence.
  - intros w e H. rewrite (weather_loop_iter_error w e H).
    repeat split; reflexivity.
  - compute_each.
Qed.

(** C5, as stated: the hourly parameter names six metrics, not five. *)
Lemma hourly_names_six_metrics :
  length (split_on "," hourly_metrics "") <> 5%nat.
Proof. vm_compute. intros H. discriminate H. Qed.

(** C5, amended.  The one GET of the fetcher goes to the fixed base
    URL with the query parameters [latitude] and [longitude] (the two
    constants), [current_weather], whose Python value [True] is sent as
    the text [True], and [hourly], the comma-joined list of six metric
    names (the commas percent-encoded in the URL). *)
Theorem request_query_parameters :
  (forall n,
     requests (snd (get_weather_data n)) = requests n ++ [request_url])
  /\ request_url
     = (base_url +:+ "?latitude=55.69782222&longitude=37.36156389"
        +:+ "&current_weather=True"
        +:+ "&hourly=temperature_2m%2Crelativehumidity_2m%2Cwindspeed_10m"
        +:+ "%2Cwinddirection_10m%2Cpressure_msl%2Cprecipitation")%string
  /\ map fst params
     = ["latitude"; "longitude"; "current_weather"; "hourly"]%string
  /\ map snd params
     = [PFloat SKOLTECH_LATITUDE; PFloat SKOLTECH_LONGITUDE; PBool true;
        PStr hourly_metrics]
  /\ SKOLTECH_LATITUDE = of_prim 55.69782222%float
  /\ SKOLTECH_LONGITUDE = of_prim 37.36156389%float
  /\ str_of_param (PBool true) = "True"%string
  /\ split_on "," hourly_metrics ""
     = ["temperature_2m"; "relativehumidity_2m"; "windspeed_10m";
        "winddirection_10m"; "pressure_msl"; "precipitation"]%string
  /\ join "," (split_on "," hourly_metrics "") = hourly_metrics.
Proof.
  split.
  - intros n. rewrite (proj1 (get_weather_data_cases n)). reflexivity.
  - compute_each.
Qed.

(* ===================================================================== *)
(** * Part III: further properties of the code                            *)
(* ===================================================================== *)

(** ** The index for every number *)

(** [x % 360] lies between 0 and 360, both included, for every finite
    [x]. *)
Lemma float_rem_range (s : Z) :
  exists r, float_rem (Fin s) f360 = Fin r /\ 0 <= r <= 360 * U.
Proof.
  pose proof U_pos as HU.
  destruct (Z_le_gt_dec 0 s) as [Hs|Hs].
  - rewrite (float_rem_nonneg s Hs). eexists. split; [reflexivity|].
    pose proof (Z.mod_pos_bound s (360 * U) ltac:(lia)). lia.
  - unfold float_rem, fmod, f360.
    destruct (Z.eqb_spec (360 * U) 0) as [E|_]; [lia|].
    pose proof (Z.rem_bound_abs s (360 * U) ltac:(lia)) as Hm.
    pose proof (Z.rem_nonpos s (360 * U) ltac:(lia) ltac:(lia)) as Hm0.
    destruct (Z.rem s (360 * U)) as [|p|p] eqn:Em;
      [exists 0; split; [reflexivity|lia]|lia|].
    unfold fltb.
    destruct (Z.ltb_spec (360 * U) 0); [lia|].
    destruct (Z.ltb_spec (Z.neg p) 0); [|lia].
    cbn [Bool.eqb negb fadd].
    apply round53_le_multiple; [lia|reflexivity].
Qed.

Lemma index_of_float (s : Z) :
  exists i,
    (i' ← int_of_float (float_rem (Fin s) f360); mret (i' / 45)) = Ok i
    /\ 0 <= i <= 8.
Proof.
  pose proof U_pos as HU.
  destruct (float_rem_range s) as (r & -> & Hr).
  unfold int_of_float. cbn [mbind result_bind mret result_ret].
  rewrite Z.quot_div_nonneg by lia.
  eexists. split; [reflexivity|].
  assert (0 <= r / U <= 360).
  { split; [apply Z.div_pos; lia|apply Z.div_le_upper_bound; lia]. }
  split; [apply Z.div_pos; lia|apply Z.div_le_upper_bound; lia].
Qed.

Lemma float_rem_special (x : pyfloat) :
  (forall s, x <> Fin s) -> float_rem x f360 = NaN.
Proof.
  intros Hx. destruct x as [s|b|]; [destruct (Hx s eq_refl)| |];
    unfold float_rem, fmod, f360, fltb;
    destruct (360 * U <? 0); reflexivity.
Qed.

(** After the sum [x + 22.5], whatever the float [x]: an index from 0
    to 8, or the [ValueError] of [int(nan)]. *)
Lemma index_after_sum (x : pyfloat) :
  (exists i,
     (i' ← int_of_float (float_rem (fadd x f22_5) f360); mret (i' / 45)) = Ok i
     /\ 0 <= i <= 8)
  \/ (i' ← int_of_float (float_rem (fadd x f22_5) f360); mret (i' / 45))
     = Raise (Exception ValueError "cannot convert float NaN to integer").
Proof.
  rewrite f22_5_eq.
  assert (forall y, (forall s, y <> Fin s) ->
            (i' ← int_of_float (float_rem y f360); mret (i' / 45))
            = Raise (Exception ValueError "cannot convert float NaN to integer"))
    as Hspecial.
  { intros y Hy. rewrite (float_rem_special y Hy). reflexivity. }
  destruct x as [a|b|]; cbn [fadd].
  - destruct (round53_sign (a + H22_5)) as [(s & -> & _)|(b & ->)].
    + left. apply index_of_float.
    + right. apply Hspecial. discriminate.
  - right. apply Hspecial. discriminate.
  - right. apply Hspecial. discriminate.
Qed.

Lemma add_float_number (wd : pyval) (c : pyfloat) :
  is_number wd = true -> add_float wd c = (x ← as_float wd; mret (fadd x c)).
Proof. destruct wd; cbn [is_number]; intros H; try discriminate H; reflexivity. Qed.

Lemma wind_index_as_float (wd : pyval) (x : pyfloat) :
  is_number wd = true -> as_float wd = Ok x ->
  wind_index wd = wind_index (VFloat x).
Proof.
  intros Hn H. unfold wind_index. rewrite (add_float_number wd _ Hn), H.
  reflexivity.
Qed.

Lemma wind_index_float_outcomes (x : pyfloat) :
  (exists i, wind_index (VFloat x) = Ok i /\ 0 <= i <= 8)
  \/ wind_index (VFloat x)
     = Raise (Exception ValueError "cannot convert float NaN to integer").
Proof. apply index_after_sum. Qed.

Lemma cannot_add_kind (wd : pyval) : kind (cannot_add wd) = TypeError.
Proof. destruct wd; reflexivity. Qed.

Lemma wind_index_cases :
  forall wd,
    (is_number wd = false ->
     wind_index wd = Raise (cannot_add wd)
     /\ kind (cannot_add wd) = TypeError)
    /\ (is_number wd = true ->
        (exists i, wind_index wd = Ok i /\ 0 <= i <= 8)
        \/ wind_index wd
           = Raise (Exception ValueError "cannot convert float NaN to integer")
        \/ wind_index wd
           = Raise (Exception OverflowError "int too large to convert to float")).
Proof.
  intros wd. split.
  - intros Hn. split; [|apply cannot_add_kind].
    destruct wd; cbn [is_number] in Hn; try discriminate Hn; reflexivity.
  - intros Hn. destruct (as_float wd) as [x|e] eqn:Ex.
    + rewrite (wind_index_as_float wd x Hn Ex).
      destruct (wind_index_float_outcomes x) as [Hi|He];
        [left; exact Hi|right; left; exact He].
    + right. right. unfold wind_index. rewrite (add_float_number wd _ Hn), Ex.
      cbn [mbind result_bind]. f_equal.
      destruct wd as [|b|z|x|s|l|d]; cbn [is_number] in Hn; try discriminate Hn;
        cbn [as_float] in Ex; try discriminate Ex.
      unfold float_of_int in Ex.
      destruct (round53 (z * U) 1); [discriminate Ex|injection Ex as <-..];
        reflexivity.
Qed.

(** X1.  The index computed from any value of [winddirection]: a value
    that is not a number raises the [TypeError] of the sum; a number
    gives an index from 0 to 8 (never a negative one, which Python
    would take from the end of the list), or the [ValueError] of
    [int(nan)] when it is not finite, or the [OverflowError] of the
    conversion when it is an int too large for a float. *)
Theorem wind_index_outcomes :
  forall wd,
    (is_number wd = false ->
     wind_index wd = Raise (cannot_add wd)
     /\ kind (cannot_add wd) = TypeError)
    /\ (is_number wd = true ->
        (exists i, wind_index wd = Ok i /\ 0 <= i <= 8)
        \/ wind_index wd
           = Raise (Exception ValueError "cannot convert float NaN to integer")
        \/ wind_index wd
           = Raise (Exception OverflowError "int too large to convert to float")).
Proof. exact wind_index_cases. Qed.

Lemma label_is_indexed :
  forall wd label,
    wind_direction_of wd = Ok label ->
    exists i,
      wind_index wd = Ok i /\ 0 <= i < 8
      /\ nth_error wind_direction_map (Z.to_nat i) = Some label.
Proof.
  intros wd label H. unfold wind_direction_of in H.
  destruct (wind_index_cases wd) as [Hno Hyes].
  destruct (is_number wd).
  - destruct (Hyes eq_refl) as [(i & Hi & Hr)|[He|He]];
      rewrite ?Hi, ?He in H; cbn [mbind result_bind] in H; try discriminate H.
    exists i. split; [exact Hi|].
    assert (i = 8 \/ 0 <= i < 8) as [->|Hlt] by lia;
      [vm_compute in H; discriminate H|].
    split; [exact Hlt|].
    destruct (wind_label i Hlt) as (l' & Hl & Hn & _). congruence.
  - rewrite (proj1 (Hno eq_refl)) in H. discriminate H.
Qed.

(** X2.  A label that [wind_direction_of] returns is the entry of the
    list at the computed index, and that index is in 0..7: no label is
    ever picked by wrap-around. *)
Theorem wind_label_is_indexed :
  forall wd label,
    wind_direction_of wd = Ok label ->
    exists i,
      wind_index wd = Ok i /\ 0 <= i < 8
      /\ nth_error wind_direction_map (Z.to_nat i) = Some label.
Proof. exact label_is_indexed. Qed.

Lemma wind_label_is_indexed_witness :
  exists i,
    wind_index (VInt 90) = Ok i /\ 0 <= i < 8
    /\ nth_error wind_direction_map (Z.to_nat i) = Some "В"%string.
Proof.
  apply (wind_label_is_indexed (VInt 90) "В"%string).
  vm_compute. reflexivity.
Defined.

(** ** Whole numbers of degrees, of any size *)

Lemma round53_finite (n : Z) :
  2 * Z.abs n + 1 < OVF ->
  exists r, round53 n 1 = Fin r /\ Z.abs r <= 2 * Z.abs n + 1.
Proof.
  intros Hb. destruct (Z_le_gt_dec 0 n) as [Hn|Hn].
  - destruct (round53_nonneg n 1 Hn ltac:(lia)) as (r & Hr & Hr');
      rewrite ?Z.div_1_r in *; [lia|].
    exists r. split; [exact Hr|lia].
  - destruct (round53_nonneg (- n) 1 ltac:(lia) ltac:(lia)) as (r & Hr & Hr');
      rewrite ?Z.div_1_r in *; [lia|].
    exists (- r). split; [|lia].
    rewrite <- (Z.opp_involutive n) at 1. rewrite round53_opp, Hr. reflexivity.
Qed.

Lemma OVF_huge : 8 * (2 ^ 1000 * U) < OVF.
Proof. apply Z.ltb_lt. vm_compute. reflexivity. Qed.

(** On a multiple of half a degree-unit, [% 360] is exact and stays
    under 360. *)
Lemma float_rem_half (s : Z) :
  (2 ^ 1073 | s) ->
  exists q, float_rem (Fin s) f360 = Fin q /\ 0 <= q < 360 * U.
Proof.
  intros Hdiv. pose proof U_pos as HU. pose proof U_double as HUP.
  assert (0 < 2 ^ 1073) as HP by (apply Z.pow_pos_nonneg; lia).
  destruct (Z_le_gt_dec 0 s) as [Hs|Hs].
  - rewrite (float_rem_nonneg s Hs). eexists. split; [reflexivity|].
    apply Z.mod_pos_bound. lia.
  - unfold float_rem, fmod, f360.
    destruct (Z.eqb_spec (360 * U) 0) as [E|_]; [lia|].
    pose proof (Z.rem_bound_abs s (360 * U) ltac:(lia)) as Hm.
    pose proof (Z.rem_nonpos s (360 * U) ltac:(lia) ltac:(lia)) as Hm0.
    assert ((2 ^ 1073 | Z.rem s (360 * U))) as [c Hc].
    { replace (Z.rem s (360 * U)) with (s - 360 * U * (s ÷ (360 * U)))
        by (pose proof (Z.quot_rem' s (360 * U)); lia).
      apply Z.divide_sub_r; [exact Hdiv|].
      exists (720 * (s ÷ (360 * U))). rewrite HUP. ring. }
    destruct (Z.rem s (360 * U)) as [|p|p] eqn:Em;
      [exists 0; split; [reflexivity|lia]|lia|].
    unfold fltb.
    destruct (Z.ltb_spec (360 * U) 0); [lia|].
    destruct (Z.ltb_spec (Z.neg p) 0); [|lia].
    cbn [Bool.eqb negb fadd].
    replace (Z.neg p + 360 * U) with ((c + 720) * 2 ^ 1073)
      by (rewrite Hc, HUP; ring).
    rewrite HUP in *.
    assert (2 ^ 53 = 9007199254740992) as H53 by reflexivity.
    pose proof OVF_large as HO.
    assert (2 ^ 1074 = 2 * 2 ^ 1073) as H74 by reflexivity.
    rewrite round53_exact by (rewrite ?H53; nia).
    eexists. split; [reflexivity|]. nia.
Qed.

Lemma integer_degrees_in_range :
  forall z,
    Z.abs z <= 2 ^ 1000 ->
    exists i label,
      wind_index (VInt z) = Ok i /\ 0 <= i < 8
      /\ wind_direction_of (VInt z) = Ok label
      /\ In label wind_direction_map.
Proof.
  intros z Hz. pose proof U_pos as HU. pose proof OVF_huge as HO.
  pose proof H22_5_half as HH.
  assert (45 <= 2 ^ 1000) as H1000 by (apply Z.leb_le; vm_compute; reflexivity).
  remember (2 ^ 1000) as T eqn:ET in *. clear ET.
  assert (Z.abs (z * U) <= T * U) as Hzu
    by (rewrite Z.abs_mul, (Z.abs_eq U) by lia; nia).
  destruct (round53_finite (z * U) ltac:(lia)) as (r & Hr & Hrb).
  assert ((2 ^ 1074 | r)) as Hdr.
  { apply (round53_multiple (z * U) 1074 r); [lia| |exact Hr].
    exists z. reflexivity. }
  assert (H22_5 <= T * U) as HHb by nia.
  destruct (round53_finite (r + H22_5) ltac:(lia)) as (s & Hs & _).
  assert ((2 ^ 1073 | s)) as Hds.
  { apply (round53_multiple (r + H22_5) 1073 s); [lia| |exact Hs].
    apply Z.divide_add_r.
    - apply Z.divide_trans with (2 ^ 1074); [exists 2; reflexivity|exact Hdr].
    - exists 45. reflexivity. }
  destruct (float_rem_half s Hds) as (q & Hq & Hqb).
  assert (wind_index (VInt z) = Ok (q / U / 45)) as Hi.
  { unfold wind_index. cbn [add_float as_float]. unfold float_of_int.
    rewrite Hr. cbn [mbind result_bind mret result_ret].
    rewrite f22_5_eq. cbn [fadd]. rewrite Hs, Hq. unfold int_of_float.
    rewrite Z.quot_div_nonneg by lia. reflexivity. }
  assert (0 <= q / U / 45 < 8) as Hb.
  { rewrite Z.div_div by lia. split.
    - apply Z.div_pos; lia.
    - apply Z.div_lt_upper_bound; lia. }
  destruct (wind_label _ Hb) as (label & Hl & _ & Hin).
  exists (q / U / 45), label. unfold wind_direction_of. rewrite Hi.
  cbn [mbind result_bind]. auto.
Qed.

(** X3.  For a whole number of degrees, as the API sends them, of any
    sign and of any size up to 2^1000, the index is computed without
    error and lies in 0..7, so a label is always found. *)
Theorem wind_index_of_integers :
  forall z,
    Z.abs z <= 2 ^ 1000 ->
    exists i label,
      wind_index (VInt z) = Ok i /\ 0 <= i < 8
      /\ wind_direction_of (VInt z) = Ok label
      /\ In label wind_direction_map.
Proof. exact integer_degrees_in_range. Qed.

Lemma wind_index_of_integers_witness :
  exists i label,
    wind_index (VInt (-400)) = Ok i /\ 0 <= i < 8
    /\ wind_direction_of (VInt (-400)) = Ok label
    /\ In label wind_direction_map.
Proof.
  apply (wind_index_of_integers (-400)).
  apply Z.leb_le. vm_compute. reflexivity.
Defined.

(** ** Which error a malformed body raises *)

Lemma no_str_index_kind (v : pyval) : kind (no_str_index v) = TypeError.
Proof. destruct v; reflexivity. Qed.

(** X4.  A body that is not a JSON object raises the [TypeError] of
    indexing it by a string; an object without [current_weather], or
    with it and without [hourly], raises the [KeyError] that names the
    key, whatever else it holds; with both present, a wind direction
    that is not a number raises the [TypeError] of the sum before any
    other field is read. *)
Theorem malformed_body_errors :
  (forall data, (forall d, data <> VDict d) ->
                reading_of_json data = Raise (no_str_index data)
                /\ kind (no_str_index data) = TypeError)
  /\ (forall d, assoc "current_weather" d = None ->
                reading_of_json (VDict d)
                = Raise (Exception KeyError "'current_weather'"))
  /\ (forall d c, assoc "current_weather" d = Some c ->
                  assoc "hourly" d = None ->
                  reading_of_json (VDict d)
                  = Raise (Exception KeyError "'hourly'"))
  /\ (forall d c h wd,
        assoc "current_weather" d = Some c ->
        assoc "hourly" d = Some h ->
        getitem c "winddirection" = Ok wd ->
        is_number wd = false ->
        reading_of_json (VDict d) = Raise (cannot_add wd)
        /\ kind (cannot_add wd) = TypeError).
Proof.
  split; [|split; [|split]].
  - intros data Hd. split; [|apply no_str_index_kind]. unfold reading_of_json.
    destruct data; try reflexivity. destruct (Hd d eq_refl).
  - intros d H. unfold reading_of_json. cbn [getitem]. rewrite H. reflexivity.
  - intros d c Hc H. unfold reading_of_json. cbn [getitem].
    rewrite Hc, H. reflexivity.
  - intros d c h wd Hc Hh Hwd Hn. split; [|apply cannot_add_kind].
    unfold reading_of_json. cbn [getitem].
    rewrite Hc, Hh. cbn [mbind result_bind]. rewrite Hwd.
    cbn [mbind result_bind]. unfold wind_direction_of.
    rewrite (proj1 (proj1 (wind_index_cases wd) Hn)). reflexivity.
Qed.

(** ** A well-formed body always gives a reading *)

Lemma getitem0_cons (v : pyval) (l : list pyval) :
  getitem0 (VList (v :: l)) = Ok v.
Proof.
  unfold getitem0, list_index. cbn [length]. rewrite Nat2Z.inj_succ.
  change (0 <? 0) with false. change (0 <=? 0) with true. cbv iota.
  destruct (Z.ltb_spec 0 (Z.succ (Z.of_nat (length l)))); [|lia].
  reflexivity.
Qed.

(** X5.  When the body has the two objects, a whole number of degrees
    of size at most 2^1000 as wind direction, and hourly series that
    start with a float, the fetcher returns a reading, whatever the
    temperature and the wind speed are: the label of the direction,
    the product for the pressure, the precipitation as it came and its
    type.  (An integer too large for a float raises instead, X1.) *)
Theorem well_formed_body_gives_reading :
  forall d c h z t ws x xs y ys,
    assoc "current_weather" d = Some c ->
    assoc "hourly" d = Some h ->
    getitem c "winddirection" = Ok (VInt z) ->
    Z.abs z <= 2 ^ 1000 ->
    getitem c "temperature" = Ok t ->
    getitem c "windspeed" = Ok ws ->
    getitem h "pressure_msl" = Ok (VList (VFloat x :: xs)) ->
    getitem h "precipitation" = Ok (VList (VFloat y :: ys)) ->
    exists label,
      wind_direction_of (VInt z) = Ok label
      /\ In label wind_direction_map
      /\ reading_of_json (VDict d)
         = Ok {| temperature := t;
                 wind_speed := ws;
                 wind_direction := label;
                 pressure := VFloat (fmul x f0_75006);
                 precipitation_type :=
                   if fltb (Fin 0) y then "rain"%string else "none"%string;
                 precipitation_amount := VFloat y |}.
Proof.
  intros d c h z t ws x xs y ys Hc Hh Hwd Hz Ht Hws Hp Ha.
  destruct (integer_degrees_in_range z Hz) as (i & label & _ & _ & Hl & Hin).
  exists label. split; [exact Hl|]. split; [exact Hin|].
  unfold reading_of_json. cbn [getitem]. rewrite Hc, Hh.
  cbn [mbind result_bind]. rewrite Hwd. cbn [mbind result_bind].
  rewrite Hl. cbn [mbind result_bind]. rewrite Ht, Hws.
  cbn [mbind result_bind]. rewrite Hp, Ha. cbn [mbind result_bind].
  rewrite !getitem0_cons. reflexivity.
Qed.

Lemma well_formed_body_witness :
  exists label,
    wind_direction_of (VInt 90) = Ok label
    /\ In label wind_direction_map
    /\ reading_of_json
         (VDict [ ("current_weather"%string,
                   VDict [ ("temperature"%string, VInt 2);
                           ("windspeed"%string, VNone);
                           ("winddirection"%string, VInt 90) ]);
                  ("hourly"%string,
                   VDict [ ("pressure_msl"%string, VList [VFloat (Fin (1013 * U))]);
                           ("precipitation"%string, VList [VFloat (Fin 0)]) ]) ])
       = Ok {| temperature := VInt 2;
               wind_speed := VNone;
               wind_direction := label;
               pressure := VFloat (fmul (Fin (1013 * U)) f0_75006);
               precipitation_type :=
                 if fltb (Fin 0) (Fin 0) then "rain"%string else "none"%string;
               precipitation_amount := VFloat (Fin 0) |}.
Proof.
  eapply (well_formed_body_gives_reading _ _ _ 90 (VInt 2) VNone
            (Fin (1013 * U)) [] (Fin 0) []);
    try reflexivity.
  apply Z.leb_le. vm_compute. reflexivity.
Defined.

(** ** The store *)

(** [float] of a string, on texts that are numbers and on texts that
    are not, against the kernel's reading of the same decimal. *)
Example float_of_str_agrees_with_binary64 :
  forallb float_of_str_agrees float_of_str_samples = true.
Proof. vm_compute. reflexivity. Qed.

Lemma fold_max_bounds (i : Z) (l : list Z) :
  In (fold_right Z.max i l) (i :: l)
  /\ Forall (fun y => y <= fold_right Z.max i l) (i :: l).
Proof.
  induction l as [|y l [IHin IHle]]; cbn [fold_right].
  - split; [left; reflexivity|constructor; [lia|constructor]].
  - split.
    + destruct (Z.max_spec y (fold_right Z.max i l)) as [[_ ->]|[_ ->]].
      * destruct IHin as [E|Hin]; [left; exact E|right; right; exact Hin].
      * right; left; reflexivity.
    + apply Forall_cons in IHle as [Hi Hl].
      constructor; [lia|]. constructor; [lia|].
      eapply Forall_impl; [exact Hl|]. cbn. intros z Hz. lia.
Qed.

(** The id of a new row is not the id of a row of the table. *)
Lemma next_id_fresh (t : list row) (pick : option Z) (i : Z) :
  next_id t pick = Some i -> ~ In i (map id t).
Proof.
  unfold next_id. destruct (map id t) as [|j l] eqn:E; [intros _ []|].
  destruct (fold_max_bounds j l) as [_ Hle].
  destruct (fold_right Z.max j l <? max_rowid).
  - intros [= <-] Hin. rewrite Forall_forall in Hle.
    apply list_elem_of_In in Hin. specialize (Hle _ Hin). lia.
  - destruct pick as [r|]; [|discriminate].
    destruct ((0 <? r) && (r <=? max_rowid)); cbn [andb]; [|discriminate].
    destruct (existsb (Z.eqb r) (j :: l)) eqn:Ex; cbn [negb]; [discriminate|].
    intros [= <-] Hin.
    assert (existsb (Z.eqb r) (j :: l) = true) as Ht
      by (apply existsb_exists; exists r; split; [exact Hin|apply Z.eqb_refl]).
    congruence.
Qed.

(** With room under the greatest id, the id of a new row is above
    every id of the table: 1 in an empty table, the largest id and one
    otherwise. *)
Lemma next_id_room (t : list row) (pick : option Z) :
  room 1 t ->
  exists i,
    next_id t pick = Some i
    /\ Forall (fun y => id y < i) t
    /\ (t = [] -> i = 1)
    /\ (forall n, room (S n) t -> i + Z.of_nat n <= max_rowid).
Proof.
  intros [_ Hroom]. unfold next_id.
  destruct t as [|x t]; cbn [map].
  - exists 1. split; [reflexivity|]. split; [constructor|].
    split; [reflexivity|]. intros n [Hn _]. lia.
  - destruct (fold_max_bounds (id x) (map id t)) as [Hin Hle].
    set (m := fold_right Z.max (id x) (map id t)) in *.
    assert (forall k, Forall (fun y => id y + k <= max_rowid) (x :: t) ->
                      m + k <= max_rowid) as Hm.
    { intros k Hk. change (id x :: map id t) with (map id (x :: t)) in Hin.
      apply in_map_iff in Hin as (y & <- & Hy).
      rewrite Forall_forall in Hk. apply Hk, list_elem_of_In, Hy. }
    pose proof (Hm 1 Hroom) as Hm1.
    destruct (Z.ltb_spec m max_rowid); [|lia].
    exists (m + 1). split; [reflexivity|]. split; [|split].
    + rewrite Forall_forall in Hle. apply Forall_forall. intros y Hy.
      assert (id y <= m) as Hym.
      { apply Hle. change (id x :: map id t) with (map id (x :: t)).
        apply list_elem_of_fmap. exists y. split; [reflexivity|exact Hy]. }
      lia.
    + discriminate.
    + intros n [_ Hn]. specialize (Hm _ Hn). lia.
Qed.

Lemma ids_increasing_snoc (t : list row) (x : row) :
  ids_increasing t -> Forall (fun y => id y < id x) t -> ids_increasing (t ++ [x]).
Proof.
  intros Hinc Hab. unfold ids_increasing. rewrite map_app.
  apply StronglySorted_app. split; [|split].
  - intros a b Ha Hb. cbn [map] in Hb. apply list_elem_of_singleton in Hb as ->.
    apply list_elem_of_fmap in Ha as (y & -> & Hy).
    rewrite Forall_forall in Hab. apply Hab. exact Hy.
  - exact Hinc.
  - cbn [map]. repeat constructor.
Qed.

Lemma NoDup_ids_snoc (t : list row) (x : row) :
  List.NoDup (map id t) -> ~ In (id x) (map id t) ->
  List.NoDup (map id (t ++ [x])).
Proof.
  intros Hnd Hfresh. rewrite map_app. cbn [map].
  apply NoDup_ListNoDup, NoDup_app. split; [|split].
  - apply NoDup_ListNoDup. exact Hnd.
  - intros y Hy Hx. apply list_elem_of_singleton in Hx as ->.
    apply Hfresh, list_elem_of_In, Hy.
  - apply NoDup_singleton.
Qed.

Lemma save_to_db_ok (d : reading) (w w' : world) :
  save_to_db d w = Ok w' ->
  exists d' i,
    bind_row d = Some d'
    /\ next_id (db w) (random_rowid w (db w)) = Some i
    /\ w' = with_db (db w ++ [ {| id := i; timestamp := utcnow w; data := d' |} ]) w.
Proof.
  intros H. destruct (save_to_db_cases d w) as [(d' & i & Hb & Hi & Hs)|[_ Hs]];
    rewrite Hs in H; [|discriminate H].
  injection H as <-. exists d', i. repeat split; assumption.
Qed.

Lemma save_to_db_appends_row :
  forall d w,
    (forall w',
       save_to_db d w = Ok w' ->
       exists x,
         db w' = db w ++ [x]
         /\ bind_row d = Some (data x)
         /\ timestamp x = utcnow w
         /\ ~ In (id x) (map id (db w))
         /\ (room 1 (db w) ->
             Forall (fun y => id y < id x) (db w)
             /\ (db w = [] -> id x = 1)
             /\ (ids_increasing (db w) -> ids_increasing (db w')))
         /\ net w' = net w /\ stdout w' = stdout w /\ files w' = files w)
    /\ (forall e,
          save_to_db d w = Raise e ->
          e = Exception StatementError (statement_error w (utcnow w) d)
          /\ (bind_row d = None
              \/ next_id (db w) (random_rowid w (db w)) = None))
    /\ (forall d', bind_row d = Some d' -> room 1 (db w) ->
                   is_ok (save_to_db d w) = true)
    /\ (bind_row d = None -> is_ok (save_to_db d w) = false).
Proof.
  intros d w. split; [|split; [|split]].
  - intros w' H. destruct (save_to_db_ok d w w' H) as (d' & i & Hb & Hi & ->).
    eexists. cbn [db with_db]. split; [reflexivity|].
    cbn [data timestamp id]. split; [exact Hb|]. split; [reflexivity|].
    split; [exact (next_id_fresh _ _ _ Hi)|].
    split; [|repeat split].
    intros Hroom.
    destruct (next_id_room (db w) (random_rowid w (db w)) Hroom)
      as (i' & Hi' & Hab & Hone & _).
    rewrite Hi in Hi'. injection Hi' as <-.
    split; [exact Hab|]. split; [exact Hone|].
    intros Hinc. apply ids_increasing_snoc; assumption.
  - intros e H. destruct (save_to_db_cases d w) as [(d' & i & _ & _ & Hs)|[Hc Hs]];
      rewrite Hs in H; [discriminate H|].
    injection H as <-. split; [reflexivity|exact Hc].
  - intros d' Hb Hroom.
    destruct (next_id_room (db w) (random_rowid w (db w)) Hroom) as (i & Hi & _).
    unfold save_to_db. rewrite Hb, Hi. reflexivity.
  - intros Hb. unfold save_to_db. rewrite Hb. reflexivity.
Qed.

(** What the columns keep of some values: an int becomes a float, a
    text that is a number becomes that number, a NaN becomes [None];
    a text that is no number, a list or a dict cannot be stored. *)
Example float_column_examples :
  float_column (VInt 2) = Some (VFloat (Fin (2 * U)))
  /\ float_column (VBool true) = Some (VFloat (Fin U))
  /\ float_column (VStr "12.5") = Some (VFloat (of_prim 12.5%float))
  /\ float_column (VFloat NaN) = Some VNone
  /\ float_column (VStr "nan") = Some VNone
  /\ float_column VNone = Some VNone
  /\ float_column (VFloat (Inf false)) = Some (VFloat (Inf false))
  /\ float_column (VStr "warm") = None
  /\ float_column (VList []) = None
  /\ float_column (VDict []) = None
  /\ float_column (VInt (10 ^ 400)) = None.
Proof. compute_each. Qed.

(** The id of the next row: 1 in an empty table, the largest id and
    one otherwise, also under 0; at the greatest id, the id drawn at
    random, if it is free. *)
Example next_id_examples :
  (forall pick, next_id [] pick = Some 1)
  /\ (forall d pick,
        next_id [ {| id := -5; timestamp := 0; data := d |} ] pick = Some (-4))
  /\ (forall d pick,
        next_id [ {| id := 3; timestamp := 0; data := d |};
                  {| id := 7; timestamp := 0; data := d |};
                  {| id := 2; timestamp := 0; data := d |} ] pick = Some 8)
  /\ (forall d,
        next_id [ {| id := max_rowid; timestamp := 0; data := d |} ] None = None)
  /\ (forall d,
        next_id [ {| id := max_rowid; timestamp := 0; data := d |} ] (Some 7)
        = Some 7)
  /\ (forall d,
        next_id [ {| id := max_rowid; timestamp := 0; data := d |};
                  {| id := 7; timestamp := 0; data := d |} ] (Some 7)
        = None).
Proof. repeat split. Qed.

(** X6.  When [save_to_db] returns, it has added one row at the end of
    the table, holding the reading as the columns keep it, the time of
    the insertion and an id that no row of the table has; with room
    under the greatest id, that id is above every id of the table (1 in
    an empty table), so the ids keep growing with the order of
    insertion; nothing else changes.  When it raises, it raises the
    error of SQLAlchemy, because a value cannot be bound to its column
    or because no id is left.  It returns whenever the values can be
    bound and there is room, and raises whenever a value cannot be
    bound. *)
Theorem save_to_db_appends :
  forall d w,
    (forall w',
       save_to_db d w = Ok w' ->
       exists x,
         db w' = db w ++ [x]
         /\ bind_row d = Some (data x)
         /\ timestamp x = utcnow w
         /\ ~ In (id x) (map id (db w))
         /\ (room 1 (db w) ->
             Forall (fun y => id y < id x) (db w)
             /\ (db w = [] -> id x = 1)
             /\ (ids_increasing (db w) -> ids_increasing (db w')))
         /\ net w' = net w /\ stdout w' = stdout w /\ files w' = files w)
    /\ (forall e,
          save_to_db d w = Raise e ->
          e = Exception StatementError (statement_error w (utcnow w) d)
          /\ (bind_row d = None
              \/ next_id (db w) (random_rowid w (db w)) = None))
    /\ (forall d', bind_row d = Some d' -> room 1 (db w) ->
                   is_ok (save_to_db d w) = true)
    /\ (bind_row d = None -> is_ok (save_to_db d w) = false).
Proof. exact save_to_db_appends_row. Qed.

(** The reading of the example is stored in a table that holds a row
    already; the reading of [body_warm] is not. *)
Example save_to_db_examples :
  save_to_db reading_1013_25 world1
  = Ok (with_db (db world1
                 ++ [ {| id := 2; timestamp := 200; data := stored_1013_25 |} ])
          world1)
  /\ (exists d, reading_of_json body_warm = Ok d
                /\ temperature d = VStr "warm"
                /\ bind_row d = None
                /\ save_to_db d world1
                   = Raise (Exception StatementError "(the INSERT failed)")).
Proof.
  split; [vm_compute; reflexivity|].
  eexists. split; [vm_compute; reflexivity|]. compute_each.
Qed.

Lemma newest_is_first (t : list row) (x : row) (n : nat) :
  Forall (fun y => timestamp y < timestamp x) t ->
  exists rest, mostRecent (S n) (t ++ [x]) = x :: rest.
Proof.
  intros Hold.
  pose proof (merge_sort_Permutation newer (t ++ [x])) as Hperm.
  pose proof (StronglySorted_merge_sort newer (t ++ [x])) as Hsort.
  unfold mostRecent.
  destruct (merge_sort newer (t ++ [x])) as [|a l] eqn:E.
  - apply Permutation_nil_l in Hperm. destruct t; discriminate Hperm.
  - cbn [take]. exists (take n l). f_equal.
    apply StronglySorted_cons in Hsort as [Hhd _].
    assert (a ∈ t ++ [x]) as Ha by (rewrite <- Hperm; left).
    apply elem_of_app in Ha as [Ha|Ha];
      [|apply list_elem_of_singleton in Ha; exact Ha].
    exfalso.
    assert (x ∈ a :: l) as Hx
      by (rewrite Hperm; apply elem_of_app; right; left).
    rewrite Forall_forall in Hold. specialize (Hold a Ha).
    apply elem_of_cons in Hx as [Hx|Hx].
    + rewrite <- Hx in Hold. lia.
    + rewrite Forall_forall in Hhd. specialize (Hhd x Hx).
      unfold newer in Hhd. lia.
Qed.

Lemma saved_row_first :
  forall d w w' n,
    Forall (fun y => timestamp y < utcnow w) (db w) ->
    save_to_db d w = Ok w' ->
    exists x rest,
      db w' = db w ++ [x]
      /\ bind_row d = Some (data x)
      /\ timestamp x = utcnow w
      /\ mostRecent (S n) (db w') = x :: rest.
Proof.
  intros d w w' n Hold H.
  destruct (save_to_db_ok d w w' H) as (d' & i & Hb & Hi & ->).
  cbn [db with_db].
  destruct (newest_is_first (db w)
              {| id := i; timestamp := utcnow w; data := d' |} n Hold)
    as (rest & Hrest).
  eexists. exists rest. split; [reflexivity|].
  cbn [data timestamp]. split; [exact Hb|]. split; [reflexivity|exact Hrest].
Qed.

(** X7.  A reading saved when the clock reads later than every
    timestamp of the table comes first in the query of the exporter
    (whatever its limit, 10 in the script): the row just added, holding
    the reading as the columns keep it, is the first data row of the
    next export. *)
Theorem saved_row_is_most_recent :
  forall d w w' n,
    Forall (fun y => timestamp y < utcnow w) (db w) ->
    save_to_db d w = Ok w' ->
    exists x rest,
      db w' = db w ++ [x]
      /\ bind_row d = Some (data x)
      /\ timestamp x = utcnow w
      /\ mostRecent (S n) (db w') = x :: rest.
Proof. exact saved_row_first. Qed.

Lemma saved_row_is_most_recent_witness :
  db world1 = [ {| id := 1; timestamp := 100; data := stored_1013_25 |} ]
  /\ utcnow world1 = 200
  /\ exists x rest,
       db (with_db (db world1
                    ++ [ {| id := 2; timestamp := 200; data := stored_1013_25 |} ])
             world1)
       = db world1 ++ [x]
       /\ bind_row reading_1013_25 = Some (data x)
       /\ timestamp x = utcnow world1
       /\ mostRecent 10
            (db (with_db (db world1
                          ++ [ {| id := 2; timestamp := 200;
                                  data := stored_1013_25 |} ])
                   world1))
          = x :: rest.
Proof.
  split; [reflexivity|]. split; [reflexivity|].
  apply (saved_row_is_most_recent reading_1013_25 world1 _ 9).
  - repeat constructor.
  - vm_compute. reflexivity.
Defined.

(** ** The loops *)

Lemma store_and_report_effect (r : result reading) (w : world) :
  net (store_and_report r w) = net w
  /\ files (store_and_report r w) = files w
  /\ utcnow (store_and_report r w) = utcnow w
  /\ now (store_and_report r w) = now w
  /\ random_rowid (store_and_report r w) = random_rowid w
  /\ (exists line, stdout (store_and_report r w) = stdout w ++ [line])
  /\ (db (store_and_report r w) = db w
      \/ exists d d' i,
           r = Ok d /\ bind_row d = Some d'
           /\ next_id (db w) (random_rowid w (db w)) = Some i
           /\ db (store_and_report r w)
              = db w ++ [ {| id := i; timestamp := utcnow w; data := d' |} ]).
Proof.
  destruct (store_and_report_cases r w)
    as [(e & _ & ->)|(d & d' & i & Hr & Hb & Hi & ->)];
    cbn [net files utcnow now random_rowid stdout db print with_db];
    repeat (split; [reflexivity|]); (split; [eexists; reflexivity|]).
  - left. reflexivity.
  - right. exists d, d', i. repeat split; assumption.
Qed.

Lemma weather_loop_iter_effect (w : world) :
  requests (net (weather_loop_iter w)) = requests (net w) ++ [request_url]
  /\ answers (net (weather_loop_iter w)) = answers (net w)
  /\ files (weather_loop_iter w) = files w
  /\ utcnow (weather_loop_iter w) = utcnow w
  /\ random_rowid (weather_loop_iter w) = random_rowid w
  /\ (exists line, stdout (weather_loop_iter w) = stdout w ++ [line]).
Proof.
  rewrite weather_loop_iter_eq.
  destruct (store_and_report_effect (fst (get_weather_data (net w)))
              (with_net (send request_url (net w)) w))
    as (Hn & Hf & Hu & _ & Hr & Ho & _).
  rewrite Hn, Hf, Hu, Hr. cbn [net with_net send requests answers].
  repeat (split; [reflexivity|]). exact Ho.
Qed.

(** A step on the table: it stays as it is, or gets one row with a
    fresh id at its end. *)
Lemma store_and_report_grows (r : result reading) (w : world) :
  db (store_and_report r w) = db w
  \/ exists x, db (store_and_report r w) = db w ++ [x]
               /\ ~ In (id x) (map id (db w)).
Proof.
  destruct (store_and_report_effect r w)
    as (_ & _ & _ & _ & _ & _ & [Hd|(d & d' & i & _ & _ & Hi & Hd)]).
  - left. exact Hd.
  - right. eexists. split; [exact Hd|]. exact (next_id_fresh _ _ _ Hi).
Qed.

Lemma grows_NoDup (t t' : list row) :
  (t' = t \/ exists x, t' = t ++ [x] /\ ~ In (id x) (map id t)) ->
  List.NoDup (map id t) -> List.NoDup (map id t').
Proof.
  intros [->|(x & -> & Hx)] Hnd; [exact Hnd|].
  apply NoDup_ids_snoc; assumption.
Qed.

Lemma grows_added (t t' : list row) :
  (t' = t \/ exists x, t' = t ++ [x] /\ ~ In (id x) (map id t)) ->
  exists added, t' = t ++ added /\ (length added <= 1)%nat.
Proof.
  intros [->|(x & -> & _)].
  - exists []. rewrite app_nil_r. split; [reflexivity|cbn; lia].
  - exists [x]. split; [reflexivity|cbn; lia].
Qed.

Lemma weather_loop_iter_grows (w : world) :
  db (weather_loop_iter w) = db w
  \/ exists x, db (weather_loop_iter w) = db w ++ [x]
               /\ ~ In (id x) (map id (db w)).
Proof.
  rewrite weather_loop_iter_eq.
  exact (store_and_report_grows _ (with_net (send request_url (net w)) w)).
Qed.

Lemma weather_loop_counts :
  forall clocks w,
    length (requests (net (weather_loop clocks w)))
    = (length (requests (net w)) + length clocks)%nat
    /\ length (stdout (weather_loop clocks w))
       = (length (stdout w) + length clocks)%nat
    /\ files (weather_loop clocks w) = files w
    /\ (exists added, db (weather_loop clocks w) = db w ++ added
                      /\ (length added <= length clocks)%nat)
    /\ (List.NoDup (map id (db w)) ->
        List.NoDup (map id (db (weather_loop clocks w)))).
Proof.
  induction clocks as [|[utc local] rest IH]; intros w.
  - cbn [weather_loop length]. repeat split; try lia; auto.
    exists []. rewrite app_nil_r. split; [reflexivity|cbn; lia].
  - cbn [weather_loop length].
    destruct (IH (set_clock utc local (weather_loop_iter w)))
      as (Hr & Ho & Hf & (added & Hd & Hl) & Hi).
    cbn [net stdout files db set_clock] in Hr, Ho, Hf, Hd, Hi.
    destruct (weather_loop_iter_effect w)
      as (Hr1 & _ & Hf1 & _ & _ & (line & Ho1)).
    pose proof (weather_loop_iter_grows w) as Hg.
    rewrite Hr, Ho, Hf, Hr1, Ho1, Hf1, !length_app. cbn [length].
    split; [lia|]. split; [lia|]. split; [reflexivity|].
    split.
    + destruct (grows_added _ _ Hg) as (a1 & Ha1 & Hl1).
      exists (a1 ++ added). rewrite Hd, Ha1, <- app_assoc.
      split; [reflexivity|rewrite length_app; lia].
    + intros Hnd. apply Hi. exact (grows_NoDup _ _ Hg Hnd).
Qed.

(** X8.  After [n] iterations of the poll loop, [n] requests have been
    sent and [n] lines printed, whatever came back and whatever could be
    stored; the table has grown by at most [n] rows at its end, and its
    ids are still distinct; no file was written. *)
Theorem weather_loop_effect :
  forall clocks w,
    length (requests (net (weather_loop clocks w)))
    = (length (requests (net w)) + length clocks)%nat
    /\ length (stdout (weather_loop clocks w))
       = (length (stdout w) + length clocks)%nat
    /\ files (weather_loop clocks w) = files w
    /\ (exists added, db (weather_loop clocks w) = db w ++ added
                      /\ (length added <= length clocks)%nat)
    /\ (List.NoDup (map id (db w)) ->
        List.NoDup (map id (db (weather_loop clocks w)))).
Proof. exact weather_loop_counts. Qed.

(** A body whose temperature is no number is fetched, is not stored,
    and is reported as an error, at each iteration. *)
Example weather_loop_warm :
  db (weather_loop [(60, now world0); (120, now world0)]
        (answering (Response 200 (Ok body_warm)) world0)) = []
  /\ stdout (weather_loop [(60, now world0); (120, now world0)]
               (answering (Response 200 (Ok body_warm)) world0))
     = ["Произошла ошибка: (the INSERT failed)";
        "Произошла ошибка: (the INSERT failed)"]%string.
Proof. compute_each. Qed.

Lemma handle_command_effect (c : string) (w : world) :
  db (fst (handle_command c w)) = db w
  /\ net (fst (handle_command c w)) = net w
  /\ (exists s, files (fst (handle_command c w))
                = files w ++ (if String.eqb (lower c) "export" then [s] else []))
  /\ snd (handle_command c w)
     = (if String.eqb (lower c) "exit" then Exited 0 else Running).
Proof.
  destruct (handle_command_cases c w)
    as [(E & H)|[(E & H)|(N1 & N2 & H)]]; rewrite H; cbn [fst snd].
  - rewrite E, export_to_excel_effect.
    cbn [fst snd db net files print write_file String.eqb Ascii.eqb Bool.eqb].
    split; [reflexivity|]. split; [reflexivity|].
    split; [eexists; reflexivity|reflexivity].
  - rewrite E. cbn [db net files print String.eqb Ascii.eqb Bool.eqb].
    split; [reflexivity|]. split; [reflexivity|].
    split; [|reflexivity].
    exists (""%string, {| header := []; body := [] |}).
    rewrite app_nil_r. reflexivity.
  - apply String.eqb_neq in N1, N2. rewrite N1, N2. cbn [db net files print].
    split; [reflexivity|]. split; [reflexivity|].
    split; [|reflexivity].
    exists (""%string, {| header := []; body := [] |}).
    rewrite app_nil_r. reflexivity.
Qed.

Lemma run_line (c : string) (rest : list event) (p : poll) (w : world) :
  run (Line c :: rest) p w
  = if String.eqb (lower c) "exit"
    then (fst (handle_command c w), Exited 0)
    else run rest p (print prompt (fst (handle_command c w))).
Proof.
  cbn [run]. destruct (handle_command_effect c w) as (_ & _ & _ & Hs).
  destruct (handle_command c w) as [w' st]. cbn [fst snd] in *. subst st.
  destruct (String.eqb (lower c) "exit"); reflexivity.
Qed.

Lemma run_until_exit (events : list event) (p : poll) (w : world) :
  run events p w = run (until_exit events) p w
  /\ snd (run events p w)
     = (if existsb is_exit events then Exited 0 else Running).
Proof.
  revert p w. induction events as [|e rest IH]; intros p w.
  - split; reflexivity.
  - destruct e as [|c|utc local].
    + cbn [until_exit is_exit existsb orb run]. apply IH.
    + cbn [until_exit is_exit existsb]. rewrite run_line.
      destruct (String.eqb (lower c) "exit") eqn:E.
      * cbn [orb]. rewrite run_line, E. split; reflexivity.
      * cbn [orb]. rewrite run_line, E. apply IH.
    + cbn [until_exit is_exit existsb orb run]. apply IH.
Qed.

(** X9.  An [exit] line, in any case of letters, ends the process with
    status 0, and nothing that comes after it takes place, neither a
    command nor a poll iteration; without such a line the script keeps
    running. *)
Theorem exit_ends_everything :
  forall events w,
    main events w = main (until_exit events) w
    /\ snd (main events w)
       = (if existsb is_exit events then Exited 0 else Running).
Proof. intros events w. unfold main. apply run_until_exit. Qed.

Lemma poll_step_effect (p : poll) (w : world) :
  length (requests (net (snd (poll_step p w))))
  = (length (requests (net w)) + sends p 1)%nat
  /\ files (snd (poll_step p w)) = files w
  /\ (List.NoDup (map id (db w)) -> List.NoDup (map id (db (snd (poll_step p w)))))
  /\ (exists added, db (snd (poll_step p w)) = db w ++ added
                    /\ (length added <= arrivals p 1)%nat).
Proof.
  destruct p; cbn [poll_step fst snd sends arrivals].
  - destruct (store_and_report_effect
                (outcome_reading (receive (net w))) w)
      as (Hn & Hf & _).
    pose proof (store_and_report_grows (outcome_reading (receive (net w))) w)
      as Hg.
    rewrite Hn, Hf. split; [lia|]. split; [reflexivity|].
    split; [exact (grows_NoDup _ _ Hg)|exact (grows_added _ _ Hg)].
  - cbn [net files db with_net send requests]. rewrite length_app. cbn [length].
    split; [lia|]. split; [reflexivity|]. split; [tauto|].
    exists []. rewrite app_nil_r. split; [reflexivity|cbn; lia].
Qed.

Lemma sends_succ (p : poll) (w : world) (k : nat) :
  sends p (S k) = (sends p 1 + sends (fst (poll_step p w)) k)%nat
  /\ arrivals p (S k) = (arrivals p 1 + arrivals (fst (poll_step p w)) k)%nat.
Proof. destruct p; split; reflexivity. Qed.

Lemma run_effect (events : list event) (p : poll) (w : world) :
  length (requests (net (fst (run events p w))))
  = (length (requests (net w)) + sends p (count is_tick (until_exit events)))%nat
  /\ length (files (fst (run events p w)))
     = (length (files w) + count is_export (until_exit events))%nat
  /\ (exists added,
        db (fst (run events p w)) = db w ++ added
        /\ (length added <= arrivals p (count is_tick (until_exit events)))%nat)
  /\ (List.NoDup (map id (db w)) ->
      List.NoDup (map id (db (fst (run events p w))))).
Proof.
  revert p w. induction events as [|e rest IH]; intros p w.
  - cbn. destruct p; cbn; repeat split; try lia; auto;
      exists []; rewrite app_nil_r; (split; [reflexivity|cbn; lia]).
  - destruct e as [|c|utc local].
    + cbn [run until_exit is_exit]. unfold count in *.
      cbn [List.filter is_tick is_export length].
      destruct (IH (fst (poll_step p w)) (snd (poll_step p w)))
        as (Hr & Hf & (added & Hd & Hl) & Hi).
      destruct (poll_step_effect p w) as (Hr1 & Hf1 & Hg & (a1 & Hd1 & Hl1)).
      destruct (sends_succ p w (length (List.filter is_tick (until_exit rest))))
        as [Hs Ha].
      rewrite Hr, Hf, Hr1, Hf1, Hs, Ha.
      split; [lia|]. split; [lia|]. split.
      * exists (a1 ++ added). rewrite Hd, Hd1, <- app_assoc.
        split; [reflexivity|rewrite length_app; lia].
      * intros Hnd. apply Hi, Hg, Hnd.
    + destruct (handle_command_effect c w) as (Hdb & Hnet & (s & Hfl) & _).
      rewrite run_line. cbn [until_exit is_exit]. unfold count in *.
      destruct (String.eqb (lower c) "exit") eqn:E.
      * cbn [fst List.filter is_tick is_export]. rewrite Hdb, Hnet, Hfl.
        assert (String.eqb (lower c) "export" = false) as ->.
        { apply String.eqb_eq in E. rewrite E. reflexivity. }
        cbn [length]. rewrite app_nil_r.
        assert (sends p 0 = 0%nat) as -> by (destruct p; reflexivity).
        assert (arrivals p 0 = 0%nat) as -> by (destruct p; reflexivity).
        split; [lia|]. split; [lia|]. split; [|tauto].
        exists []. rewrite app_nil_r. split; [reflexivity|cbn; lia].
      * destruct (IH p (print prompt (fst (handle_command c w))))
          as (Hr & Hf & (added & Hd & Hl) & Hi).
        cbn [db net files print] in *. rewrite Hdb, Hnet, Hfl in *.
        cbn [List.filter is_tick is_export].
        rewrite Hr, Hf, length_app.
        destruct (String.eqb (lower c) "export") eqn:Ex; cbn [length];
          (split; [lia|]); (split; [lia|]); (split; [|exact Hi]);
          exists added; (split; [exact Hd|exact Hl]).
    + cbn [run until_exit is_exit]. unfold count in *.
      cbn [List.filter is_tick is_export].
      exact (IH p (set_clock utc local w)).
Qed.

Lemma sends_arrivals_half (k : nat) :
  sends Waiting k = Nat.div2 k /\ arrivals Waiting k = Nat.div2 (S k)
  /\ sends Sleeping k = Nat.div2 (S k) /\ arrivals Sleeping k = Nat.div2 k.
Proof.
  induction k as [k IH] using lt_wf_ind.
  destruct k as [|[|k]]; [repeat split..|].
  destruct (IH k ltac:(lia)) as (H1 & H2 & H3 & H4).
  cbn [sends arrivals]. rewrite H1, H2, H3, H4. repeat split.
Qed.

(** Two turns of the poll loop, the sending of the request and the
    coming of its answer, are one iteration of [weather_loop]. *)
Lemma two_turns_one_iteration (w : world) :
  snd (poll_step Waiting (snd (poll_step Sleeping w))) = weather_loop_iter w.
Proof.
  rewrite weather_loop_iter_eq. cbn [poll_step snd net with_net].
  f_equal. unfold receive, send. cbn [requests answers].
  rewrite length_app. cbn [length]. rewrite Nat.add_1_r. reflexivity.
Qed.

(** X10.  Whatever the order in which the turns of the poll loop, the
    lines typed and the passing of time come, up to the [exit] line:
    the first request goes out at the start, and of [k] turns of the
    poll loop every second one sends a request and every other one
    finishes an iteration, so that [1 + k/2] requests are sent and at
    most [(k+1)/2] rows are added, at the end of the table and with ids
    that stay distinct; one file is written per [export] line. *)
Theorem main_effect :
  forall events w,
    length (requests (net (fst (main events w))))
    = (length (requests (net w)) + 1
       + Nat.div2 (count is_tick (until_exit events)))%nat
    /\ length (files (fst (main events w)))
       = (length (files w) + count is_export (until_exit events))%nat
    /\ (exists added,
          db (fst (main events w)) = db w ++ added
          /\ (length added
              <= Nat.div2 (S (count is_tick (until_exit events))))%nat)
    /\ (List.NoDup (map id (db w)) ->
        List.NoDup (map id (db (fst (main events w))))).
Proof.
  intros events w. unfold main.
  destruct (sends_arrivals_half (count is_tick (until_exit events)))
    as (<- & <- & _).
  destruct (run_effect events Waiting
              (print prompt
                 (print_instructions
                    (with_net (send request_url (net w))
                       (print "Запуск скрипта сбора данных о погоде..." w)))))
    as (Hr & Hf & Hd & Hi).
  cbn [net files db print print_instructions with_net send requests] in Hr, Hf, Hd, Hi.
  rewrite length_app in Hr. cbn [length] in Hr.
  split; [lia|]. split; [exact Hf|]. split; [exact Hd|exact Hi].
Qed.

(** An [exit] typed while the first request is on its way: the request
    has been sent, and no iteration was finished. *)
Example exit_while_waiting :
  requests (net (fst (main [Line "exit"; Tick]
                        (answering (Response 200 (Ok body_1013_25)) world0))))
  = [request_url]
  /\ db (fst (main [Line "exit"; Tick]
                (answering (Response 200 (Ok body_1013_25)) world0))) = []
  /\ length (db (fst (main [Tick; Line "exit"]
                        (answering (Response 200 (Ok body_1013_25)) world0))))
     = 1%nat.
Proof. compute_each. Qed.

(** X11.  The command loop alone never touches the table nor the
    network: whatever is typed, the rows and the requests sent are
    those of before; it is the poll loop that writes them. *)
Theorem handle_user_input_reads_only :
  forall lines w,
    db (fst (handle_user_input lines w)) = db w
    /\ net (fst (handle_user_input lines w)) = net w.
Proof.
  intros lines w. unfold handle_user_input.
  change (db w) with (db (print_instructions w)).
  change (net w) with (net (print_instructions w)).
  generalize (print_instructions w). clear w.
  induction lines as [|c rest IH]; intros w; [split; reflexivity|].
  cbn [command_loop].
  destruct (handle_command_effect c (print prompt w)) as (Hdb & Hnet & _ & _).
  destruct (handle_command c (print prompt w)) as [w' [|k]]; cbn [fst] in *.
  - destruct (IH w') as [H1 H2]. rewrite H1, H2, Hdb, Hnet. split; reflexivity.
  - rewrite Hdb, Hnet. split; reflexivity.
Qed.

(** X12.  With a row in the store, the file the exporter writes has
    the seven labels as header and [min 10 (number of rows)] data rows
    of seven cells each. *)
Theorem export_with_rows :
  forall w,
    db w <> [] ->
    exists s,
      files (snd (export_to_excel w)) = files w ++ [(export_filename (now w), s)]
      /\ header s = export_labels
      /\ length (body s) = Nat.min 10 (length (db w))
      /\ Forall (fun r => length r = 7%nat) (body s).
Proof.
  intros w Hne. destruct (export_header_with_rows w Hne) as (s & Hs & Hh).
  exists s. split; [exact Hs|]. split; [exact Hh|].
  rewrite export_to_excel_effect in Hs. cbn [snd files print write_file] in Hs.
  apply app_inj_tail in Hs as [_ Hs]. injection Hs as <-.
  cbn [body]. rewrite length_map, mostRecent_length.
  split; [reflexivity|]. apply Forall_map, Forall_forall. reflexivity.
Qed.

Lemma export_with_rows_witness :
  exists s,
    files (snd (export_to_excel world1))
    = files world1 ++ [(export_filename (now world1), s)]
    /\ header s = export_labels
    /\ length (body s) = Nat.min 10 (length (db world1))
    /\ Forall (fun r => length r = 7%nat) (body s).
Proof.
  apply (export_with_rows world1).
  discriminate.
Defined.

(** ** What the table holds *)

Lemma stored_row_ok (body : pyval) (d d' : reading) (i t : Z) :
  reading_of_json body = Ok d -> bind_row d = Some d' ->
  row_ok {| id := i; timestamp := t; data := d' |}.
Proof.
  intros Hr Hb. unfold row_ok. cbn [data].
  destruct (bind_row_inv d d' Hb) as (Ht & Hws & Hp & Ha & Hdir & _).
  split; [|split; [exact (stored_rain_iff_positive body d d' Hr Hb)|]].
  - rewrite Hdir.
    destruct (reading_of_json_inv body d Hr)
      as (current & wd & p0 & p & a0 & wet & _ & _ & Hl & _).
    destruct (label_is_indexed wd _ Hl) as (j & _ & _ & Hn).
    exact (nth_error_In _ _ Hn).
  - repeat split; eapply float_column_real_or_null; eassumption.
Qed.

Lemma outcome_reading_body (o : http_outcome) (d : reading) :
  outcome_reading o = Ok d ->
  exists status body, o = Response status (Ok body) /\ reading_of_json body = Ok d.
Proof.
  destruct o as [e|status [body|e]]; cbn [outcome_reading mbind result_bind];
    try discriminate.
  intros H. exists status, body. split; [reflexivity|exact H].
Qed.

Lemma store_and_report_ok (o : http_outcome) (w : world) :
  Forall row_ok (db w) ->
  Forall row_ok (db (store_and_report (outcome_reading o) w)).
Proof.
  intros Hok.
  destruct (store_and_report_effect (outcome_reading o) w)
    as (_ & _ & _ & _ & _ & _ & [->|(d & d' & i & Hr & Hb & _ & ->)]);
    [exact Hok|].
  apply Forall_app. split; [exact Hok|]. constructor; [|constructor].
  destruct (outcome_reading_body o d Hr) as (st & body & _ & Hrd).
  exact (stored_row_ok body d d' _ _ Hrd Hb).
Qed.

Lemma run_rows_ok (events : list event) (p : poll) (w : world) :
  Forall row_ok (db w) -> Forall row_ok (db (fst (run events p w))).
Proof.
  revert p w. induction events as [|e rest IH]; intros p w Hok; [exact Hok|].
  destruct e as [|c|utc local].
  - cbn [run]. apply IH. destruct p; cbn [poll_step snd].
    + apply store_and_report_ok, Hok.
    + exact Hok.
  - rewrite run_line.
    destruct (handle_command_effect c w) as (Hdb & _).
    destruct (String.eqb (lower c) "exit"); cbn [fst].
    + rewrite Hdb. exact Hok.
    + apply IH. cbn [db print]. rewrite Hdb. exact Hok.
  - cbn [run]. apply IH. exact Hok.
Qed.

(** X13.  Every row the script stores has one of the eight labels as
    wind direction, ["rain"] as precipitation type exactly when its
    amount is above 0, and in each of its four [Float] columns a float
    that is no NaN, or nothing: a table whose rows are so stays so
    through any run of the poll loop and of the commands. *)
Theorem stored_rows_stay_well_formed :
  forall events w,
    Forall row_ok (db w) -> Forall row_ok (db (fst (main events w))).
Proof.
  intros events w Hok. unfold main. apply run_rows_ok. exact Hok.
Qed.

Lemma reading_1013_25_ok : reading_of_json body_1013_25 = Ok reading_1013_25.
Proof. vm_compute. reflexivity. Qed.

Lemma stored_1013_25_ok : bind_row reading_1013_25 = Some stored_1013_25.
Proof. vm_compute. reflexivity. Qed.

Lemma world1_rows_ok : Forall row_ok (db world1).
Proof.
  constructor; [|constructor].
  exact (stored_row_ok body_1013_25 reading_1013_25 stored_1013_25 1 100
           reading_1013_25_ok stored_1013_25_ok).
Qed.

Lemma stored_rows_stay_well_formed_witness :
  length (db (fst (main [Tick; Line "export"; Clock 260 (now world0); Tick; Tick]
                     (answering (Response 200 (Ok body_1013_25)) world1))))
  = 3%nat
  /\ Forall row_ok
       (db (fst (main [Tick; Line "export"; Clock 260 (now world0); Tick; Tick]
                   (answering (Response 200 (Ok body_1013_25)) world1)))).
Proof.
  split; [vm_compute; reflexivity|].
  apply (stored_rows_stay_well_formed
           [Tick; Line "export"%string; Clock 260 (now world0); Tick; Tick]
           (answering (Response 200 (Ok body_1013_25)) world1)).
  exact world1_rows_ok.
Defined.

(** ** Polling a service that answers *)

Lemma room_step (n : nat) (t : list row) (x : row) :
  room (S n) t -> id x + Z.of_nat n <= max_rowid -> room n (t ++ [x]).
Proof.
  intros [Hn Hroom] Hx. split; [lia|].
  apply Forall_app. split.
  - eapply Forall_impl; [exact Hroom|]. cbn. intros y Hy. lia.
  - constructor; [exact Hx|constructor].
Qed.

Lemma room_one (n : nat) (t : list row) : room (S n) t -> room 1 t.
Proof.
  intros [Hn Hroom]. split; [vm_compute; discriminate|].
  eapply Forall_impl; [exact Hroom|]. cbn. intros y Hy. lia.
Qed.

Lemma weather_loop_iter_stores (w : world) (st : Z) (body : pyval)
      (d d' : reading) (n : nat) :
  answers (net w) (length (requests (net w))) = Response st (Ok body) ->
  reading_of_json body = Ok d ->
  bind_row d = Some d' ->
  room (S n) (db w) ->
  exists i,
    db (weather_loop_iter w)
    = db w ++ [ {| id := i; timestamp := utcnow w; data := d' |} ]
    /\ room n (db (weather_loop_iter w)).
Proof.
  intros Hans Hr Hb Hroom.
  destruct (next_id_room (db w) (random_rowid w (db w)) (room_one n _ Hroom))
    as (i & Hi & Hab & _ & Hn).
  exists i.
  assert (db (weather_loop_iter w)
          = db w ++ [ {| id := i; timestamp := utcnow w; data := d' |} ]) as Hdb.
  { rewrite weather_loop_iter_eq, (proj2 (get_weather_data_cases (net w))), Hans.
    cbn [outcome_reading mbind result_bind]. rewrite Hr.
    unfold store_and_report. cbn [mbind result_bind].
    unfold save_to_db. cbn [db with_net utcnow random_rowid].
    rewrite Hb, Hi. reflexivity. }
  split; [exact Hdb|]. rewrite Hdb.
  apply room_step; [exact Hroom|]. cbn [id]. exact (Hn n Hroom).
Qed.

Lemma weather_loop_answering (clocks : list (Z * datetime)) (w : world) (st : Z)
      (body : pyval) (d d' : reading) :
  (forall i, answers (net w) i = Response st (Ok body)) ->
  reading_of_json body = Ok d ->
  bind_row d = Some d' ->
  room (length clocks) (db w) ->
  exists added,
    db (weather_loop clocks w) = db w ++ added
    /\ map data added = repeat d' (length clocks)
    /\ map timestamp added
       = take (length clocks) (utcnow w :: map fst clocks).
Proof.
  intros Hans Hd Hb. revert w Hans.
  induction clocks as [|[utc local] rest IH]; intros w Hans Hroom.
  - exists []. cbn [weather_loop]. rewrite app_nil_r. repeat split.
  - cbn [weather_loop length].
    destruct (weather_loop_iter_stores w st body d d' (length rest)
                (Hans _) Hd Hb Hroom) as (i & Hdb & Hroom').
    destruct (weather_loop_iter_effect w) as (_ & Hans' & _).
    destruct (IH (set_clock utc local (weather_loop_iter w)))
      as (added & Hdb' & Hdata & Hts).
    { intros j. cbn [net set_clock]. rewrite Hans'. apply Hans. }
    { cbn [db set_clock]. exact Hroom'. }
    cbn [db utcnow set_clock] in Hdb', Hts.
    exists ({| id := i; timestamp := utcnow w; data := d' |} :: added).
    rewrite Hdb', Hdb, <- app_assoc.
    cbn [map repeat data timestamp take fst app]. rewrite Hdata, Hts.
    repeat split.
Qed.

(** X14.  When every request is answered by a body that gives the
    reading [d], which the columns keep as [d'], and there is room
    under the greatest id, [n] iterations of the poll loop add [n] rows
    to the table, each holding [d'], stamped with what the clock read
    at each iteration. *)
Theorem polling_stores_every_reading :
  forall clocks w st body d d',
    (forall i, answers (net w) i = Response st (Ok body)) ->
    reading_of_json body = Ok d ->
    bind_row d = Some d' ->
    room (length clocks) (db w) ->
    exists added,
      db (weather_loop clocks w) = db w ++ added
      /\ map data added = repeat d' (length clocks)
      /\ map timestamp added
         = take (length clocks) (utcnow w :: map fst clocks)
      /\ length (db (weather_loop clocks w))
         = (length (db w) + length clocks)%nat.
Proof.
  intros clocks w st body d d' Hans Hd Hb Hroom.
  destruct (weather_loop_answering clocks w st body d d' Hans Hd Hb Hroom)
    as (added & Hdb & Hdata & Hts).
  exists added. split; [exact Hdb|]. split; [exact Hdata|]. split; [exact Hts|].
  rewrite Hdb, length_app. f_equal.
  rewrite <- (length_map data added), Hdata. apply repeat_length.
Qed.

Lemma room_world1 : room 3 (db world1).
Proof.
  split; [vm_compute; discriminate|].
  constructor; [vm_compute; discriminate|constructor].
Qed.

Lemma polling_stores_every_reading_witness :
  exists added,
    db (weather_loop [(260, now world0); (440, now world0); (620, now world0)]
          (answering (Response 200 (Ok body_1013_25)) world1))
    = db (answering (Response 200 (Ok body_1013_25)) world1) ++ added
    /\ map data added = repeat stored_1013_25 3
    /\ map timestamp added = [200; 260; 440]
    /\ length (db (weather_loop
                     [(260, now world0); (440, now world0); (620, now world0)]
                     (answering (Response 200 (Ok body_1013_25)) world1)))
       = (length (db (answering (Response 200 (Ok body_1013_25)) world1)) + 3)%nat.
Proof.
  apply (polling_stores_every_reading
           [(260, now world0); (440, now world0); (620, now world0)]
           (answering (Response 200 (Ok body_1013_25)) world1)
           200 body_1013_25 reading_1013_25 stored_1013_25).
  - intros i. reflexivity.
  - exact reading_1013_25_ok.
  - exact stored_1013_25_ok.
  - exact room_world1.
Defined.

(** ** Commands and the case of their letters *)

Lemma lower_ascii_idem (c : ascii) : lower_ascii (lower_ascii c) = lower_ascii c.
Proof.
  unfold lower_ascii.
  destruct ((65 <=? N_of_ascii c)%N && (N_of_ascii c <=? 90)%N) eqn:E;
    [|rewrite E; reflexivity].
  apply andb_prop in E as [E1 E2].
  apply N.leb_le in E1, E2.
  rewrite N_ascii_embedding by lia.
  destruct (N.leb_spec 65 (N_of_ascii c + 32)); [|lia].
  destruct (N.leb_spec (N_of_ascii c + 32) 90); [lia|]. reflexivity.
Qed.

Lemma lower_idem (s : string) : lower (lower s) = lower s.
Proof.
  induction s as [|c s IH]; [reflexivity|].
  cbn [lower]. rewrite lower_ascii_idem, IH. reflexivity.
Qed.

(** X15.  A command does what its lower-case form does, for every
    line: the letters' case changes nothing, to the exporter, to the
    exit or to the unknown-command message. *)
Theorem command_case_insensitive :
  forall command w,
    handle_command (lower command) w = handle_command command w.
Proof.
  intros command w. unfold handle_command. rewrite lower_idem. reflexivity.
Qed.
